(** * Webflow data recorder: capture pipeline and session-partitioned action store

    A shallow embedding of [src/database/vector_db.py] and
    [src/browser/controller.py], and the properties of the capture
    pipeline proved about it.

    - Python dictionaries and JSONB objects are [gmap string _]: JSONB keeps
      one value per key and no key order, and a later key of a dict literal
      overrides an earlier equal one.
    - Module globals ([PG_CONN], [page_action_logs], [flows], [all_windows])
      are fields of explicit state records threaded through the functions.
    - What the outside world decides (whether the database server answers,
      whether a statement raises, the clock) is an explicit environment
      argument.
    - The browser is the driver as WebDriver specifies it: the value of a
      script is what its body returns, and a command that is not a dialog
      command, sent while a dialog is open, dismisses the dialog and
      fails. *)

From stdpp Require Import base option list gmap strings pretty.
From Stdlib Require Import ZArith Ascii String.

Local Open Scope string_scope.
Local Open Scope Z_scope.
Local Open Scope list_scope.

Set Warnings "-register-all".

(** ** JSON values *)

(** What [psycopg2] hands back for a JSONB column, and what Selenium hands
    back for a JavaScript object.  [JNull] also stands for SQL [NULL]:
    both arrive in Python as [None]. *)
Inductive json : Type :=
  | JNull
  | JBool (b : bool)
  | JNum (n : Z)
  | JStr (s : string)
  | JArr (l : list json)
  | JObj (m : gmap string json).

(** Python truthiness of a decoded JSON value. *)
Definition truthy (v : json) : bool :=
  match v with
  | JNull => false
  | JBool b => b
  | JNum n => negb (Z.eqb n 0)
  | JStr s => negb (bool_decide (s = ""))
  | JArr l => match l with [] => false | _ => true end
  | JObj m => negb (bool_decide (m = ∅))
  end.

(** ** The [page_embeddings] table (vector_db.py) *)

Module VectorDb.

(** [model.encode(text)]: the embedding is kept symbolically, as the text it
    was computed from. *)
Inductive embedding_t : Type := Encode (text : string).

(** One row of [page_embeddings]; [url] is the primary key and is the key
    of the table map. *)
Record row : Type := Row {
  embedding : option embedding_t;
  content : option string;
  content_type : string;
  timestamp : Z;
  title : string;
  is_alert : bool;
  session_id : option string;
  page_actions : json
}.

(** The module globals [PG_CONN]/[PG_CURSOR] (set or [None]) and the table. *)
Record pg : Type := Pg {
  PG_CONN : bool;
  table : gmap string row
}.

(** The environment of one database call. *)
Record pg_env : Type := PgEnv {
  server_up : bool;     (* [psycopg2.connect] succeeds *)
  db_raises : bool;     (* a statement inside the [try] raises *)
  now : Z               (* [time.time()] *)
}.

Definition set_table (t : gmap string row) (db : pg) : pg :=
  {| PG_CONN := PG_CONN db; table := t |}.

(** [connect_to_db]. *)
Definition connect_to_db (e : pg_env) (db : pg) : bool * pg :=
  if server_up e then (true, {| PG_CONN := true; table := table db |})
  else (false, db).

(** The prologue shared by the public functions:
    [if not PG_CONN or not PG_CURSOR: if not connect_to_db(): return False]. *)
Definition ensure_connection (e : pg_env) (db : pg) : option pg :=
  if PG_CONN db then Some db
  else let '(ok, db') := connect_to_db e db in
       if ok then Some db' else None.

Definition legacy_default : string := "legacy_default".
Definition session_unknown : string := "session_unknown".

(** [session_key = session_id or "session_unknown"]: [None] and the empty
    string are both falsy. *)
Definition session_key (sid : option string) : string :=
  match sid with
  | Some s => if decide (s = "") then session_unknown else s
  | None => session_unknown
  end.

(** The normalisation of [existing] (lines 204-222): the new value of the
    [page_actions] column of a row that exists. *)
Definition merge_existing (existing : json) (key : string) (actions : list json) : gmap string json :=
  match existing with
  | JNull => {[ key := JArr actions ]}
  | JArr old => <[ key := JArr actions ]> {[ legacy_default := JArr old ]}
  | JObj m =>
      match m !! key with
      | Some (JArr l) => <[ key := JArr (l ++ actions) ]> m
      | _ => <[ key := JArr actions ]> m
      end
  | _ => {[ key := JArr actions ]}
  end.

(** The whole content of the column after a write, from the content before
    ([None]: no row). *)
Definition merged (before : option json) (key : string) (actions : list json)
    : gmap string json :=
  match before with
  | Some existing => merge_existing existing key actions
  | None => {[ key := JArr actions ]}
  end.

(** The column is a legacy flat list. *)
Definition legacy_store (before : option json) : Prop :=
  exists old, before = Some (JArr old).

(** [COALESCE(%s, session_id)]. *)
Definition coalesce (new old : option string) : option string :=
  match new with Some s => Some s | None => old end.

(** The body of the [try] block once the guards have passed. *)
Definition write_actions (e : pg_env) (url : string) (actions : list json)
    (sid : option string) (t : gmap string row) : gmap string row :=
  let key := session_key sid in
  match t !! url with
  | Some r =>
      <[ url := {| embedding := embedding r; content := content r;
                   content_type := content_type r; timestamp := now e;
                   title := title r; is_alert := is_alert r;
                   session_id := coalesce sid (session_id r);
                   page_actions := JObj (merge_existing (page_actions r) key actions) |} ]> t
  | None =>
      <[ url := {| embedding := None; content := None; content_type := "html";
                   timestamp := now e; title := ""; is_alert := false;
                   session_id := sid;
                   page_actions := JObj {[ key := JArr actions ]} |} ]> t
  end.

(** [update_page_actions(url, actions, session_id=None)].  [actions] is any
    Python value; only a non-empty list passes the guard.  The result is the
    returned flag and the database afterwards; an exception inside the [try]
    rolls the transaction back. *)
Definition update_page_actions (e : pg_env) (url : string) (actions : json)
    (sid : option string) (db : pg) : bool * pg :=
  match ensure_connection e db with
  | None => (false, db)
  | Some db1 =>
      match actions with
      | JArr (a :: l) =>
          if decide (url = "") then (true, db1)
          else if db_raises e then (false, db1)
          else (true, set_table (write_actions e url (a :: l) sid (table db1)) db1)
      | _ => (true, db1)
      end
  end.

(** [metadata.get("is_alert", False)], as a condition; an empty or missing
    dictionary has no such key. *)
Definition meta_is_alert (metadata : gmap string json) : bool :=
  match metadata !! "is_alert" with Some v => truthy v | None => false end.

(** [metadata.get("title", "")]; a title that is not a string is stored as
    the empty text. *)
Definition meta_title (metadata : gmap string json) : string :=
  match metadata !! "title" with Some (JStr s) => s | _ => "" end.

(** [store_in_pgvector(url, content, metadata, session_id)].
    [html_text] is [BeautifulSoup(content, "html.parser").get_text().strip()]
    and [current_session] is the id of [history_manager.current_session],
    when there is one.  The upsert leaves [page_actions] alone. *)
Definition store_in_pgvector (html_text : string -> string) (e : pg_env)
    (current_session : option string) (url content : string)
    (metadata : gmap string json) (sid : option string) (db : pg) : bool * pg :=
  match ensure_connection e db with
  | None => (false, db)
  | Some db1 =>
      if db_raises e then (false, db1)
      else
        let '(text_content, ctype) :=
          if decide (content = "") then ("No content available", "unknown")
          else if meta_is_alert metadata then (content, "alert")
          else (html_text content, "html") in
        let sid' :=
          match sid with
          | Some s => if decide (s = "") then coalesce current_session sid else sid
          | None => coalesce current_session sid
          end in
        let old_actions :=
          match table db1 !! url with Some r => page_actions r | None => JNull end in
        (true, set_table (<[ url := {| embedding := Some (Encode text_content);
                                       content := Some text_content;
                                       content_type := ctype;
                                       timestamp := now e;
                                       title := meta_title metadata;
                                       is_alert := meta_is_alert metadata;
                                       session_id := sid';
                                       page_actions := old_actions |} ]> (table db1)) db1)
  end.

(** The effect on the table of a call that has a connection: the guards of
    [update_page_actions] and its roll-back, as one function. *)
Definition apply_batch (e : pg_env) (url : string) (actions : json)
    (sid : option string) (t : gmap string row) : gmap string row :=
  match actions with
  | JArr (a :: l) =>
      if decide (url = "") then t
      else if db_raises e then t
      else write_actions e url (a :: l) sid t
  | _ => t
  end.

(** The per-session mapping stored for [url], when there is a row. *)
Definition stored_actions (db : pg) (url : string) : option json :=
  page_actions <$> table db !! url.

(** The list a column value holds under [key]: empty unless the value is a
    mapping that has a list under that key. *)
Definition list_under (key : string) (v : json) : list json :=
  match v with
  | JObj m => match m !! key with Some (JArr l) => l | _ => [] end
  | _ => []
  end.

(** The list stored under [key] for [url]. *)
Definition session_list (db : pg) (url key : string) : list json :=
  from_option (list_under key) [] (stored_actions db url).

End VectorDb.

(** ** The client-side capture script (controller.py, [inject_action_listeners]) *)

Module Page.

(** *** Strings as the script uses them *)

(** [String.prototype.toLowerCase], on the ASCII letters. *)
Definition lower_ascii (c : ascii) : ascii :=
  let n := nat_of_ascii c in
  if (Nat.leb 65 n && Nat.leb n 90)%bool then ascii_of_nat (n + 32) else c.

Fixpoint toLowerCase (s : string) : string :=
  match s with
  | EmptyString => EmptyString
  | String c s' => String (lower_ascii c) (toLowerCase s')
  end.

(** [String.prototype.toUpperCase], on the ASCII letters. *)
Definition upper_ascii (c : ascii) : ascii :=
  let n := nat_of_ascii c in
  if (Nat.leb 97 n && Nat.leb n 122)%bool then ascii_of_nat (n - 32) else c.

Fixpoint toUpperCase (s : string) : string :=
  match s with
  | EmptyString => EmptyString
  | String c s' => String (upper_ascii c) (toUpperCase s')
  end.

(** [h.includes(k)]. *)
Fixpoint includes (h k : string) : bool :=
  String.prefix k h ||
  match h with
  | EmptyString => false
  | String _ h' => includes h' k
  end.

Definition is_space (c : ascii) : bool :=
  let n := nat_of_ascii c in
  (Nat.eqb n 32 || (Nat.leb 9 n && Nat.leb n 13))%bool.

Fixpoint ltrim (s : string) : string :=
  match s with
  | EmptyString => EmptyString
  | String c s' => if is_space c then ltrim s' else s
  end.

Fixpoint rtrim (s : string) : string :=
  match s with
  | EmptyString => EmptyString
  | String c s' =>
      match rtrim s' with
      | EmptyString => if is_space c then EmptyString else String c EmptyString
      | r => String c r
      end
  end.

(** [String.prototype.trim]. *)
Definition trim (s : string) : string := rtrim (ltrim s).

(** [a || b] on strings: the empty string is falsy. *)
Definition or_str (a b : string) : string := if decide (a = "") then b else a.

Definition streq (a b : string) : bool := bool_decide (a = b).

(** *** The DOM as the script reads it *)

(** An element, by the properties and attributes the script reads.
    [getAttribute] is [None] for a missing attribute.  [xpath] and
    [label_text] carry what [getXPath] and [getLabelText] compute by walking
    the document, which is not modelled. *)
Record element : Type := Element {
  tagName : string;
  el_type : string;
  el_id : string;
  el_name : string;
  el_value : string;
  el_checked : bool;
  el_innerText : string;
  attr_name : option string;
  attr_id : option string;
  attr_placeholder : option string;
  attr_autocomplete : option string;
  attr_aria_label : option string;
  attr_href : option string;
  selected_text : option string;   (* [options[selectedIndex].text], when an option is selected *)
  xpath : string;
  label_text : string
}.

(** The form an element belongs to ([target.form || target.closest('form')]). *)
Record form : Type := Form {
  form_attr_name : option string;
  form_attr_id : option string;
  form_attr_action : option string;
  form_attr_method : option string;
  form_xpath : string;
  elements : list element
}.

(** The event object, by the fields the script reads. *)
Record event : Type := Event {
  key : option string;
  pageX : option Z;
  pageY : option Z
}.

(** The page-local state of the script, and what it reads of the page. *)
Record window : Type := Window {
  flowListenersInstalled : bool;
  flowActionQueue : option (list json);   (* [None]: the property is undefined *)
  flowActionCounter : option Z;
  location_href : string;
  document_title : string;
  date_iso : string                       (* [(new Date()).toISOString()] *)
}.

(** *** [isSensitive] *)

Definition needles : list string :=
  ["password"; "pass"; "pwd"; "secret"; "token"; "ssn"; "sin"; "credit"; "card"; "cvc"; "cvv"; "pin"].

Definition attr_lower (a : option string) : string := toLowerCase (default "" a).

Definition isSensitive (el : element) : bool :=
  let n := attr_lower (attr_name el) in
  let i := toLowerCase (el_id el) in
  let t := toLowerCase (el_type el) in
  let ph := attr_lower (attr_placeholder el) in
  let ac := attr_lower (attr_autocomplete el) in
  let label := attr_lower (attr_aria_label el) in
  let haystacks := [n; i; ph; ac; label; t] in
  streq t "password" || existsb (fun h => existsb (fun k => includes h k) needles) haystacks.


(** The mask token. *)
Definition mask : string := "***".

(** *** [buildAction] *)

(** [((target.type || target.tagName) || '').toLowerCase()]. *)
Definition field_type_of (el : element) : string :=
  toLowerCase (or_str (el_type el) (tagName el)).

Definition tag_lower (el : element) : string := toLowerCase (tagName el).

Definition is_check_or_radio (ty : string) : bool := streq ty "checkbox" || streq ty "radio".

(** One entry of [fields] in a submit payload (the body of the [forEach]). *)
Definition submit_field (el : element) : gmap string json :=
  let elType := field_type_of el in
  let sens := isSensitive el in
  let value :=
    if is_check_or_radio elType then JBool (el_checked el)
    else if streq (tag_lower el) "select" then JStr (el_value el)
    else JStr (if sens then mask else el_value el) in
  <["sensitive" := JBool sens]> (<["value" := value]> (<["type" := JStr elType]>
    (<["id" := JStr (el_id el)]> {[ "name" := JStr (el_name el) ]}))).

Definition is_enter (evt : event) : bool :=
  match key evt with Some k => streq k "Enter" | None => false end.

(** [dataObj], by event type. *)
Definition build_data (type : string) (target : element) (frm : option form) (evt : event)
    : gmap string json :=
  let fieldType := field_type_of target in
  let sensitive := isSensitive target in
  let tName := tag_lower target in
  if streq type "input" || streq type "change" then
    let d1 : gmap string json :=
      if is_check_or_radio fieldType then {[ "checked" := JBool (el_checked target) ]} else ∅ in
    let d2 :=
      if streq tName "select" then
        <["text" := JStr (default "" (selected_text target))]>
          (<["value" := JStr (el_value target)]> d1)
      else if negb (streq fieldType "checkbox") && negb (streq fieldType "radio") then
        <["value" := JStr (if sensitive then mask else el_value target)]> d1
      else d1 in
    <["sensitive" := JBool sensitive]> d2
  else if streq type "click" then
    let d1 : gmap string json :=
      if streq tName "a" then {[ "href" := JStr (default "" (attr_href target)) ]} else ∅ in
    if streq tName "button" ||
       (streq tName "input" &&
        existsb (streq fieldType) ["button"; "submit"; "reset"])
    then <["text" := JStr (trim (or_str (el_innerText target) (el_value target)))]> d1
    else d1
  else if streq type "submit" then
    let fields :=
      match frm with
      | Some f => (fun el => JObj (submit_field el)) <$> elements f
      | None => []
      end in
    {[ "fields" := JArr fields ]}
  else if streq type "keydown" && is_enter evt then
    {[ "key" := JStr "Enter" ]}
  else ∅.

Definition opt_num (z : option Z) : json :=
  match z with Some n => JNum n | None => JNull end.

Definition form_str (frm : option form) (get : form -> string) : json :=
  JStr (match frm with Some f => get f | None => "" end).

(** The action object built for one event; [n] is its [action_id]. *)
Definition action_object (n : Z) (type : string) (target : element) (frm : option form)
    (evt : event) (w : window) : gmap string json :=
  <["page_y" := opt_num (pageY evt)]> (
  <["page_x" := opt_num (pageX evt)]> (
  <["timestamp_utc" := JStr (date_iso w)]> (
  <["data" := JObj (build_data type target frm evt)]> (
  <["form_xpath" := form_str frm form_xpath]> (
  <["form_method" := form_str frm (fun f => toUpperCase (or_str (default "" (form_attr_method f)) "GET"))]> (
  <["form_action" := form_str frm (fun f => default "" (form_attr_action f))]> (
  <["form_id" := form_str frm (fun f => default "" (form_attr_id f))]> (
  <["form_name" := form_str frm (fun f => default "" (form_attr_name f))]> (
  <["field_type" := JStr (field_type_of target)]> (
  <["field_id" := JStr (default "" (attr_id target))]> (
  <["field_name" := JStr (default "" (attr_name target))]> (
  <["field_label" := JStr (label_text target)]> (
  <["field_css" := JStr ""]> (
  <["field_xpath" := JStr (xpath target)]> (
  <["title" := JStr (document_title w)]> (
  <["url" := JStr (location_href w)]> (
  <["type" := JStr (if streq type "keydown" && is_enter evt then "keydown_enter" else type)]> (
  {[ "action_id" := JNum n ]})))))))))))))))))).

(** [buildAction(type, target, evt)].  The counter is advanced before the
    push; a push on an undefined queue throws inside the [try] and is
    swallowed, which leaves the queue undefined. *)
Definition buildAction (type : string) (target : element) (frm : option form)
    (evt : event) (w : window) : window :=
  let n := default 0 (flowActionCounter w) + 1 in
  let action := JObj (action_object n type target frm evt w) in
  {| flowListenersInstalled := flowListenersInstalled w;
     flowActionQueue := (fun q => q ++ [action]) <$> flowActionQueue w;
     flowActionCounter := Some n;
     location_href := location_href w;
     document_title := document_title w;
     date_iso := date_iso w |}.

(** *** The listeners *)

Inductive event_kind : Type := Click | Change | Input | Keydown | Submit.

(** A DOM event reaching [document]: its kind, its [target] (an element), the
    form the target resolves to, and the event object. *)
Record dom_event : Type := DomEvent {
  ev_kind : event_kind;
  ev_target : element;
  ev_form : option form;
  ev_evt : event
}.

(** The five capture-phase listeners (lines 360-386). *)
Definition listener (ev : dom_event) (w : window) : window :=
  let el := ev_target ev in
  match ev_kind ev with
  | Click => buildAction "click" el (ev_form ev) (ev_evt ev) w
  | Change =>
      if existsb (streq (tag_lower el)) ["input"; "textarea"; "select"]
      then buildAction "change" el (ev_form ev) (ev_evt ev) w else w
  | Input =>
      let type := toLowerCase (el_type el) in
      if streq type "password" then buildAction "input" el (ev_form ev) (ev_evt ev) w
      else if streq (tag_lower el) "textarea" ||
              existsb (streq type) ["email"; "number"; "tel"; "search"; "text"; "url"]
      then buildAction "input" el (ev_form ev) (ev_evt ev) w else w
  | Keydown =>
      if is_enter (ev_evt ev) then buildAction "keydown" el (ev_form ev) (ev_evt ev) w else w
  | Submit => buildAction "submit" el (ev_form ev) (ev_evt ev) w
  end.

(** An event on a page: the listeners run only once installed. *)
Definition dispatch (ev : dom_event) (w : window) : window :=
  if flowListenersInstalled w then listener ev w else w.

(** *** The two scripts *)

(** The function of the installation script, with the value it returns. *)
Definition install_iife (w : window) : window * string :=
  if flowListenersInstalled w then (w, "already")
  else ({| flowListenersInstalled := true;
           flowActionQueue := Some [];
           flowActionCounter := Some 0;
           location_href := location_href w;
           document_title := document_title w;
           date_iso := date_iso w |}, "installed").

(** The function of the drain script:
    [var q = (window.__flowActionQueue || []); window.__flowActionQueue = []; return q;].
    An array is truthy even when empty.  The page runs it to completion
    before any other event handler. *)
Definition drain_iife (w : window) : window * list json :=
  ({| flowListenersInstalled := flowListenersInstalled w;
      flowActionQueue := Some [];
      flowActionCounter := flowActionCounter w;
      location_href := location_href w;
      document_title := document_title w;
      date_iso := date_iso w |},
   default [] (flowActionQueue w)).

(** A script handed to [execute_script].  WebDriver runs the script text as
    the body of an anonymous function and hands back what that function
    returns: [Some v] when the body executes [return v], [None] (Python
    [None]) when the body ends without a [return] statement. *)
Definition script : Type := window -> window * option json.

(** The installation script is the statement [(function() {...})();]. *)
Definition install_script : script :=
  fun w => (fst (install_iife w), None).

(** The drain script is the statement [(function() {...})();] as well.  The
    inner function is called, which swaps the queue, but the script text does
    not start with [return]: the [return q] belongs to the inner function,
    the value of the call is dropped, and the script itself returns
    nothing. *)
Definition drain_script : script :=
  fun w => (fst (drain_iife w), None).

End Page.

(** ** The capture loop (controller.py) *)

Module Controller.

Import VectorDb Page.

(** *** The browser behind the driver *)

Record tab : Type := Tab {
  handle : string;
  tab_url : string;        (* [browser.current_url] on this tab *)
  page_source : string;
  win : window
}.

(** [tabs] is [browser.window_handles], in the driver's order;
    [pending_alert] is the text of the open dialog, if any. *)
Record browser_t : Type := Browser {
  alive : bool;
  tabs : list tab;
  current_window_handle : string;
  pending_alert : option string
}.

Definition current_tab (b : browser_t) : option tab :=
  List.find (fun t => streq (handle t) (current_window_handle b)) (tabs b).

(** [browser.current_url]; [None] when the current window is gone and the
    driver raises. *)
Definition current_url (b : browser_t) : option string := tab_url <$> current_tab b.

(** [is_browser_alive]: reading [current_window_handle] succeeds. *)
Definition is_browser_alive (b : browser_t) : bool :=
  alive b && bool_decide (is_Some (current_tab b)).

(** [browser.switch_to.window(handle)]. *)
Definition switch_to_window (h : string) (b : browser_t) : browser_t :=
  {| alive := alive b; tabs := tabs b; current_window_handle := h;
     pending_alert := pending_alert b |}.

Definition set_win (w : window) (t : tab) : tab :=
  {| handle := handle t; tab_url := tab_url t; page_source := page_source t; win := w |}.

(** [browser.execute_script(script)]: the script runs in the page of the
    current window. *)
Definition execute_script (s : script) (b : browser_t) : browser_t * option json :=
  match current_tab b with
  | None => (b, None)
  | Some t =>
      ({| alive := alive b;
          tabs := (fun t' => if streq (handle t') (current_window_handle b)
                             then set_win (fst (s (win t'))) t' else t') <$> tabs b;
          current_window_handle := current_window_handle b;
          pending_alert := pending_alert b |},
       snd (s (win t)))
  end.

(** [inject_action_listeners]. *)
Definition inject_action_listeners (b : browser_t) : browser_t :=
  if is_browser_alive b then fst (execute_script install_script b) else b.

(** [drain_action_queue]: [browser.execute_script(...) or []]. *)
Definition drain_action_queue (b : browser_t) : browser_t * list json :=
  if is_browser_alive b then
    let '(b', r) := execute_script drain_script b in
    (b', match r with Some (JArr l) => l | _ => [] end)
  else (b, []).

(** *** The process state *)

(** What the process does to the outside, in order. *)
Inductive effect : Type :=
  | EvStatus (msg : string)                      (* [signals.update_status.emit] *)
  | EvError (title msg : string)                 (* [signals.error.emit] *)
  | EvNeo4j (url : string) (metadata : gmap string json)
            (referrer session : option string)   (* [store_in_neo4j] *)
  | EvEnumerate                                  (* [browser.window_handles] read by [capture_all_tabs] *)
  | EvAlertAccept                                (* [alert.accept()] *)
  | EvSleep (half_seconds : nat).                (* [time.sleep] *)

Record state : Type := State {
  browser : browser_t;
  stop_capturing : bool;
  flows : gmap string (gmap string json * string);
  all_windows : gset string;
  page_action_logs : gmap string (list json);
  db : pg;
  current_session : option string;    (* [history_manager.current_session.id] *)
  trace : list effect
}.

Definition set_browser (b : browser_t) (st : state) : state :=
  {| browser := b; stop_capturing := stop_capturing st; flows := flows st;
     all_windows := all_windows st; page_action_logs := page_action_logs st;
     db := db st; current_session := current_session st; trace := trace st |}.

Definition set_flows (f : gmap string (gmap string json * string)) (st : state) : state :=
  {| browser := browser st; stop_capturing := stop_capturing st; flows := f;
     all_windows := all_windows st; page_action_logs := page_action_logs st;
     db := db st; current_session := current_session st; trace := trace st |}.

Definition set_all_windows (s : gset string) (st : state) : state :=
  {| browser := browser st; stop_capturing := stop_capturing st; flows := flows st;
     all_windows := s; page_action_logs := page_action_logs st;
     db := db st; current_session := current_session st; trace := trace st |}.

Definition set_logs (l : gmap string (list json)) (st : state) : state :=
  {| browser := browser st; stop_capturing := stop_capturing st; flows := flows st;
     all_windows := all_windows st; page_action_logs := l;
     db := db st; current_session := current_session st; trace := trace st |}.

Definition set_db (d : pg) (st : state) : state :=
  {| browser := browser st; stop_capturing := stop_capturing st; flows := flows st;
     all_windows := all_windows st; page_action_logs := page_action_logs st;
     db := d; current_session := current_session st; trace := trace st |}.

Definition emit (ev : effect) (st : state) : state :=
  {| browser := browser st; stop_capturing := stop_capturing st; flows := flows st;
     all_windows := all_windows st; page_action_logs := page_action_logs st;
     db := db st; current_session := current_session st;
     trace := trace st ++ [ev] |}.

(** The environment of one step of the loop. *)
Record env : Type := Env {
  pg_e : pg_env
}.

(** [process_new_actions(tab_url, actions)].  The buffer of the URL is the
    list object that [setdefault] returns, extended in place, and it is that
    buffer which goes to [update_page_actions], with no session id. *)
Definition process_new_actions (e : env) (url : string) (actions : list json)
    (st : state) : state :=
  match actions with
  | [] => st
  | _ :: _ =>
      let buffer := default [] (page_action_logs st !! url) ++ actions in
      let st1 := set_logs (<[ url := buffer ]> (page_action_logs st)) st in
      let st2 := set_db (snd (update_page_actions (pg_e e) url (JArr buffer) None (db st1))) st1 in
      emit (EvStatus ("Recorded " +:+ pretty (List.length actions) +:+ " action(s) on " +:+ url)) st2
  end.

Section Capture.

(** What the page parsers and the runtime compute, outside this code:
    Python's [hash] of a string, the text BeautifulSoup extracts from a page,
    and [extract_metadata] (a BeautifulSoup traversal). *)
Variable py_hash : string -> Z.
Variable html_text : string -> string.
Variable extract_metadata : string -> gmap string json.

(** [record_action(url, metadata, content, referrer)]. *)
Definition record_action (e : env) (url : string) (metadata : gmap string json)
    (content : string) (referrer : option string) (st : state) : state :=
  let st1 :=
    match flows st !! url with
    | None => set_flows (<[ url := (metadata, content) ]> (flows st)) st
    | Some _ => st
    end in
  let session_id := current_session st1 in
  let st2 := emit (EvNeo4j url metadata referrer session_id) st1 in
  set_db (snd (store_in_pgvector html_text (pg_e e) (current_session st2)
                 url content metadata session_id (db st2))) st2.

(** The dictionary [alert_metadata] of [check_alerts]. *)
Definition alert_metadata (url alert_text : string) : gmap string json :=
  <["is_alert" := JBool true]> (
  <["summary" := JStr alert_text]> (
  <["links" := JObj ∅]> (
  <["forms" := JArr []]> (
  <["actions" := JArr [JStr "OK"; JStr "Cancel"]]> (
  <["fields" := JArr []]> (
  <["headings" := JArr [JStr "Alert"]]> (
  <["meta_tags" := JObj ∅]> (
  {[ "title" := JStr ("Alert on " +:+ url) ]})))))))).

Definition alert_content (url alert_text : string) : string :=
  "<html><body><h1>Alert on " +:+ url +:+ "</h1><p>" +:+ alert_text +:+ "</p></body></html>".

(** [alert.accept()]. *)
Definition accept_alert (st : state) : state :=
  emit EvAlertAccept
    (set_browser {| alive := alive (browser st); tabs := tabs (browser st);
                    current_window_handle := current_window_handle (browser st);
                    pending_alert := None |} st).

(** [browser.current_url], as the driver answers it inside [check_alerts].
    The command is not one of the dialog commands: with a dialog open,
    WebDriver first handles the prompt, which without an
    [unhandledPromptBehavior] capability (the options of [start_browser] set
    none) means that the driver dismisses the dialog and answers with the
    error "unexpected alert open"; the binding raises it ([None]). *)
Definition read_current_url (b : browser_t) : browser_t * option string :=
  match pending_alert b with
  | Some _ =>
      ({| alive := alive b; tabs := tabs b;
          current_window_handle := current_window_handle b;
          pending_alert := None |}, None)
  | None => (b, current_url b)
  end.

(** [check_alerts].  Without a dialog the bounded wait times out and the
    bare [except] returns [False].  With a dialog, [alert.text] is read and
    then [browser.current_url] (line 713); when that raises, the bare
    [except] returns [False] as well, and the lines after it (the record,
    the notice, [alert.accept()]) are not run. *)
Definition check_alerts (e : env) (st : state) : bool * state :=
  match pending_alert (browser st) with
  | None => (false, st)
  | Some alert_text =>
      let '(b1, answer) := read_current_url (browser st) in
      let st0 := set_browser b1 st in
      match answer with
      | None => (false, st0)
      | Some url =>
          let alert_url := url +:+ "#alert-" +:+ pretty (now (pg_e e)) in
          let st1 := record_action e alert_url (alert_metadata url alert_text)
                       (alert_content url alert_text) (Some url) st0 in
          let st2 := emit (EvStatus ("Captured alert: " +:+
                                     String.substring 0 30 alert_text +:+ "...")) st1 in
          (true, accept_alert st2)
      end
  end.

(** One entry of the list [capture_all_tabs] returns. *)
Record tab_result : Type := TabResult {
  r_url : string;
  r_content : string;
  r_is_new : bool;
  r_events : list json
}.

(** A result that is not for the placeholder page. *)
Definition not_blank (r : tab_result) : Prop := r_url r <> "about:blank".

(** The body of the [for handle in browser.window_handles] loop. *)
Definition capture_tab (e : env) (new_handles : gset string)
    (acc : state * list tab_result) (h : string) : state * list tab_result :=
  let '(st, results) := acc in
  let b1 := switch_to_window h (browser st) in
  let b2 := inject_action_listeners b1 in
  let '(b3, pending_actions) := drain_action_queue b2 in
  let st' := set_browser b3 st in
  match current_tab b3 with
  | None => (st', results)
  | Some t =>
      if streq (tab_url t) "about:blank" then
        (match pending_actions with
         | [] => st'
         | _ :: _ => process_new_actions e (tab_url t) pending_actions st'
         end, results)
      else
        (st', results ++ [ {| r_url := tab_url t; r_content := page_source t;
                              r_is_new := bool_decide (h ∈ new_handles);
                              r_events := pending_actions |} ])
  end.

(** [capture_all_tabs]; [None] when reading the current handle or URL
    raises, before the [try]. *)
Definition capture_all_tabs (e : env) (st : state)
    : option (state * list tab_result * string) :=
  match current_tab (browser st) with
  | None => None
  | Some t0 =>
      let current_handle := current_window_handle (browser st) in
      let handles := handle <$> tabs (browser st) in
      let current_handles : gset string := list_to_set handles in
      let new_handles := current_handles ∖ all_windows st in
      let st1 := set_all_windows current_handles (emit EvEnumerate st) in
      let '(st2, results) := foldl (capture_tab e new_handles) (st1, []) handles in
      Some (set_browser (switch_to_window current_handle (browser st2)) st2,
            results, tab_url t0)
  end.

(** The locals of [capture_web_actions] that live across iterations. *)
Record locals : Type := Locals {
  last_url : string;
  processed_urls : gmap string Z
}.

(** The body of [for tab_data in tabs_data]. *)
Definition process_tab (e : env) (last : string)
    (acc : state * gmap string Z) (td : tab_result) : state * gmap string Z :=
  let '(st, processed) := acc in
  let url := r_url td in
  let content_hash := py_hash (r_content td) in
  let st1 :=
    match r_events td with
    | [] => st
    | _ :: _ => process_new_actions e url (r_events td) st
    end in
  if decide (processed !! url = Some content_hash) then (st1, processed)
  else
    let metadata := extract_metadata (r_content td) in
    let referrer :=
      if r_is_new td then Some last
      else if bool_decide (is_Some (processed !! url)) then Some url
      else None in
    let st2 := record_action e url metadata (r_content td) referrer st1 in
    let st3 :=
      emit (EvStatus (if bool_decide (is_Some (processed !! url))
                      then "Updated page: " +:+ url
                      else "Captured new page: " +:+ url)) st2 in
    let st4 := set_browser (inject_action_listeners (browser st3)) st3 in
    (st4, <[ url := content_hash ]> processed).

Inductive control : Type := Continue | Break.

(** One iteration of [while not stop_capturing], after the test of the
    flag. *)
Definition loop_body (e : env) (st : state) (loc : locals) : control * state * locals :=
  if negb (is_browser_alive (browser st)) then
    (Break, emit (EvError "Browser Error" "Browser window was closed") st, loc)
  else
    let '(handled, st1) := check_alerts e st in
    if handled then (Continue, st1, loc)
    else
      match capture_all_tabs e st1 with
      | None =>
          let st2 := emit (EvSleep 2) st1 in
          (if is_browser_alive (browser st2) then Continue else Break, st2, loc)
      | Some (st2, tabs_data, current) =>
          let '(st3, processed) :=
            foldl (process_tab e (last_url loc)) (st2, processed_urls loc) tabs_data in
          (Continue, emit (EvSleep 1) st3,
           {| last_url := current; processed_urls := processed |})
      end.

(** The loop of [capture_web_actions], one environment per iteration; the
    run ends when the environments are used up, when the stop flag is found
    set, or on [Break]. *)
Fixpoint capture_loop (envs : list env) (st : state) (loc : locals) : state * locals :=
  match envs with
  | [] => (st, loc)
  | e :: envs' =>
      if stop_capturing st then (st, loc)
      else
        match loop_body e st loc with
        | (Break, st', loc') => (st', loc')
        | (Continue, st', loc') => capture_loop envs' st' loc'
        end
  end.

End Capture.

End Controller.

(** ** Sample data *)

Module Samples.

Import VectorDb Page Controller.

Definition a : json := JStr "a".
Definition b : json := JStr "b".
Definition c : json := JStr "c".

Definition env_ok : pg_env := {| server_up := true; db_raises := false; now := 1700000000 |}.

Definition bare_row (actions : json) : row :=
  {| embedding := None; content := None; content_type := "html"; timestamp := 0;
     title := ""; is_alert := false; session_id := None; page_actions := actions |}.

Definition page_url : string := "https://shop.test/cart".

(** A row whose column is a legacy flat list [[a, b]]. *)
Definition legacy_row : row := bare_row (JArr [a; b]).
Definition legacy_db : pg := {| PG_CONN := true; table := {[ page_url := legacy_row ]} |}.

(** A row with two sessions already recorded. *)
Definition two_sessions : gmap string json :=
  <["s2" := JArr [b]]> {[ "s1" := JArr [a] ]}.
Definition partitioned_row : row := bare_row (JObj two_sessions).
Definition partitioned_db : pg := {| PG_CONN := false; table := {[ page_url := partitioned_row ]} |}.

Definition empty_db : pg := {| PG_CONN := true; table := ∅ |}.

(** A page on which the listeners are installed and nothing is queued. *)
Definition fresh_page : window :=
  fst (install_iife {| flowListenersInstalled := false; flowActionQueue := None;
                       flowActionCounter := None; location_href := page_url;
                       document_title := "Cart";
                       date_iso := "2024-05-01T10:00:00.000Z" |}).

Definition plain_element (tag type name value : string) : element :=
  {| tagName := tag; el_type := type; el_id := ""; el_name := name; el_value := value;
     el_checked := false; el_innerText := "";
     attr_name := Some name; attr_id := None; attr_placeholder := None;
     attr_autocomplete := None; attr_aria_label := None; attr_href := None;
     selected_text := None; xpath := "/html/body/form/" +:+ name; label_text := "" |}.


(** [<input type="text" name="api_token">] holding [t0k3n]. *)
Definition token_input : element := plain_element "INPUT" "text" "api_token" "t0k3n".





(** A click on [<button id="go">], and the page after it. *)
Definition go_button : element :=
  {| tagName := "BUTTON"; el_type := "submit"; el_id := "go"; el_name := "";
     el_value := ""; el_checked := false; el_innerText := " Go ";
     attr_name := None; attr_id := Some "go"; attr_placeholder := None;
     attr_autocomplete := None; attr_aria_label := None; attr_href := None;
     selected_text := None; xpath := "//*[@id='go']"; label_text := "" |}.

Definition click_go : dom_event :=
  {| ev_kind := Click; ev_target := go_button; ev_form := None;
     ev_evt := {| key := None; pageX := Some 10; pageY := Some 20 |} |}.

Definition clicked_page : window := dispatch click_go fresh_page.

(** The placeholder page, instrumented, after the same click. *)
Definition blank_clicked : window :=
  dispatch click_go
    (fst (install_iife {| flowListenersInstalled := false; flowActionQueue := None;
                          flowActionCounter := None; location_href := "about:blank";
                          document_title := "";
                          date_iso := "2024-05-01T10:00:00.000Z" |})).

(** A browser with one tab, showing [url] with page state [w]. *)
Definition one_tab (url : string) (w : window) (dialog : option string) : browser_t :=
  {| alive := true;
     tabs := [ {| handle := "w1"; tab_url := url; page_source := "<html></html>"; win := w |} ];
     current_window_handle := "w1";
     pending_alert := dialog |}.

(** A running capture during recording session [s1]. *)
Definition running (b : browser_t) : state :=
  {| browser := b; stop_capturing := false; flows := ∅; all_windows := {[ "w1" ]};
     page_action_logs := ∅; db := empty_db; current_session := Some "s1"; trace := [] |}.

Definition world_ok : env := {| pg_e := env_ok |}.

Definition no_locals : locals := {| last_url := page_url; processed_urls := ∅ |}.


End Samples.

(** ** Reading the table back (vector_db.py) *)

Module VectorDbQueries.

Import VectorDb.

(** The dictionary [get_page_content] returns. *)
Record page_info : Type := PageInfo {
  info_content : option string;
  info_timestamp : Z;
  info_datetime : string;
  info_content_type : string;
  info_title : string;
  info_is_alert : bool;
  info_session_id : option string;
  info_page_actions : json
}.

(** [datetime.fromtimestamp(ts).strftime(...) if ts else "Unknown"]; [fmt]
    is the formatting in the local time zone. *)
Definition readable_time (fmt : Z -> string) (ts : Z) : string :=
  if decide (ts = 0) then "Unknown" else fmt ts.

(** [get_page_content(url)]: [None] without a connection, on an exception
    and when there is no row. *)
Definition get_page_content (fmt : Z -> string) (e : pg_env) (url : string) (db : pg)
    : option page_info * pg :=
  match ensure_connection e db with
  | None => (None, db)
  | Some db1 =>
      if db_raises e then (None, db1)
      else
        (match table db1 !! url with
         | Some r =>
             Some {| info_content := content r;
                     info_timestamp := timestamp r;
                     info_datetime := readable_time fmt (timestamp r);
                     info_content_type := content_type r;
                     info_title := title r;
                     info_is_alert := is_alert r;
                     info_session_id := session_id r;
                     info_page_actions := page_actions r |}
         | None => None
         end, db1)
  end.

(** The rows a statistics query ranges over: all of them, or, for a truthy
    [session_id], those [WHERE session_id = %s]. *)
Definition selected_rows (sid : option string) (t : gmap string row) : list row :=
  let rows := (map_to_list t).*2 in
  match sid with
  | Some s => if decide (s = "") then rows
              else filter (fun r => session_id r = Some s) rows
  | None => rows
  end.

(** [SELECT content_type, COUNT( * ) ... GROUP BY content_type], as the
    dictionary built from its rows. *)
Definition count_by_type (rows : list row) : gmap string nat :=
  foldr (fun r m => <[ content_type r := S (default 0%nat (m !! content_type r)) ]> m) ∅ rows.

(** [MIN(timestamp)] and [MAX(timestamp)]: [None] over no row. *)
Definition min_timestamp (rows : list row) : option Z :=
  match timestamp <$> rows with
  | [] => None
  | x :: l => Some (foldr Z.min x l)
  end.

Definition max_timestamp (rows : list row) : option Z :=
  match timestamp <$> rows with
  | [] => None
  | x :: l => Some (foldr Z.max x l)
  end.

(** [fmt(ts) if ts else None]. *)
Definition capture_time (fmt : Z -> string) (ts : option Z) : option string :=
  match ts with
  | Some z => if decide (z = 0) then None else Some (fmt z)
  | None => None
  end.

Record db_stats : Type := DbStats {
  total : nat;
  content_types : gmap string nat;
  alerts : nat;
  first_capture : option string;
  latest_capture : option string
}.

(** What [get_db_stats] returns: [{}] without a connection,
    [{"error": ...}] on an exception, the statistics otherwise. *)
Inductive stats_result : Type :=
  | StatsEmpty
  | StatsError
  | StatsOk (s : db_stats).

(** [get_db_stats(session_id)]. *)
Definition get_db_stats (fmt : Z -> string) (e : pg_env) (sid : option string) (db : pg)
    : stats_result * pg :=
  match ensure_connection e db with
  | None => (StatsEmpty, db)
  | Some db1 =>
      if db_raises e then (StatsError, db1)
      else
        let rows := selected_rows sid (table db1) in
        (StatsOk {| total := List.length rows;
                    content_types := count_by_type rows;
                    alerts := List.length (filter (fun r => is_alert r = true) rows);
                    first_capture := capture_time fmt (min_timestamp rows);
                    latest_capture := capture_time fmt (max_timestamp rows) |}, db1)
  end.

(** The sum of the counts of a [GROUP BY] result. *)
Definition sum_counts (m : gmap string nat) : nat :=
  map_fold (fun _ n acc => (n + acc)%nat) 0%nat m.

End VectorDbQueries.

(** ** Auxiliary views of the table *)

Module VectorDbAux.

Import VectorDb.

(** The effect on the table of a [store_in_pgvector] call that has a
    connection: its upsert and its roll-back, as one function. *)
Definition apply_snapshot (html_text : string -> string) (e : pg_env)
    (current_session : option string) (url body : string)
    (metadata : gmap string json) (sid : option string)
    (t : gmap string row) : gmap string row :=
  table (snd (store_in_pgvector html_text e current_session url body metadata sid
                {| PG_CONN := true; table := t |})).

(** A row without the two columns that every write refreshes, [timestamp]
    and [session_id]. *)
Definition snapshot_view (r : row)
    : option embedding_t * option string * string * string * bool * json :=
  (embedding r, content r, content_type r, title r, is_alert r, page_actions r).

End VectorDbAux.

(** ** Runs of a page *)

Module PageRuns.

Import Page.







(** The texts [isSensitive] searches: the five attributes and the type. *)
Definition haystacks (el : element) : list string :=
  [attr_lower (attr_name el); toLowerCase (el_id el); attr_lower (attr_placeholder el);
   attr_lower (attr_autocomplete el); attr_lower (attr_aria_label el);
   toLowerCase (el_type el)].

End PageRuns.

(** ** Starting a capture, and runs of batches *)

Module ControllerAux.

Import VectorDb Page Controller.

(** The normalisation of the target address, in [start_capturing] and again
    at the top of [capture_web_actions]:
    [if not TARGET_WEBSITE.startswith(('http://', 'https://')):
       TARGET_WEBSITE = 'https://' + TARGET_WEBSITE]. *)
Definition normalize_target (target : string) : string :=
  if String.prefix "http://" target || String.prefix "https://" target
  then target
  else "https://" +:+ target.

(** The buffers [process_new_actions] hands to the store over a run of
    batches for one URL, from the buffer the URL starts with. *)
Fixpoint running_buffers (buffer : list json) (batches : list (list json))
    : list (list json) :=
  match batches with
  | [] => []
  | batch :: rest => (buffer ++ batch) :: running_buffers (buffer ++ batch) rest
  end.

(** A run of [process_new_actions] for one URL. *)
Definition process_batches (e : env) (url : string) (batches : list (list json))
    (st : state) : state :=
  foldl (fun st batch => process_new_actions e url batch st) st batches.

(** What the worker never writes and what only grows: the stop flag, the
    recording session, and the effects so far. *)
Definition extends (st st' : state) : Prop :=
  stop_capturing st' = stop_capturing st
  /\ current_session st' = current_session st
  /\ trace st `prefix_of` trace st'.

(** The recorded actions are the same in two states: the buffers and the
    list under every session key of every URL. *)
Definition same_actions (st st' : state) : Prop :=
  page_action_logs st' = page_action_logs st
  /\ forall u k, session_list (db st') u k = session_list (db st) u k.

(** A tab as the driver identifies it: handle, address and source. *)
Definition tab_view (t : tab) : string * string * string :=
  (handle t, tab_url t, page_source t).

(** What [execute_script] does to one tab. *)
Definition on_handle (h : string) (f : window -> window) (t : tab) : tab :=
  if streq (handle t) h then set_win (f (win t)) t else t.

(** The result [capture_all_tabs] builds for a tab. *)
Definition result_of (new_handles : gset string) (t : tab) : tab_result :=
  {| r_url := tab_url t; r_content := page_source t;
     r_is_new := bool_decide (handle t ∈ new_handles); r_events := [] |}.

(** The results a pass adds for the window [h]. *)
Definition results_for (nh : gset string) (l : list tab) (h : string) : list tab_result :=
  match List.find (fun t => streq (handle t) h) l with
  | Some t => if streq (tab_url t) "about:blank" then [] else [result_of nh t]
  | None => []
  end.


End ControllerAux.

(** ** More sample data *)

Module MoreSamples.

Import VectorDb VectorDbQueries Page Controller Samples.

Definition cart_metadata : gmap string json := {[ "title" := JStr "Cart" ]}.

(** The environment of a call made a minute after [env_ok]. *)
Definition env_later : pg_env :=
  {| server_up := true; db_raises := false; now := 1700000060 |}.

Definition cart_html : string := "<html><title>Cart</title><body>2 items</body></html>".

(** A stand-in for the text extraction of the HTML parser. *)
Definition whole_text (html : string) : string := html.

(** A stand-in for the formatting of a timestamp. *)
Definition show_time (ts : Z) : string := pretty ts.

(** A stand-in for Python's [hash]. *)
Definition length_hash (s : string) : Z := Z.of_nat (String.length s).

(** A stand-in for [extract_metadata]. *)
Definition title_only (html : string) : gmap string json := {[ "title" := JStr html ]}.

Definition click_t1 : json := JStr "click@t1".
Definition input_t2 : json := JStr "input@t2".

(** Two windows: the cart page, and a placeholder page opened since the last
    pass ([running] knows the window [w1] only). *)
Definition two_tabs : browser_t :=
  {| alive := true;
     tabs := [ {| handle := "w1"; tab_url := page_url; page_source := cart_html;
                  win := clicked_page |};
               {| handle := "w2"; tab_url := "about:blank"; page_source := "";
                  win := blank_clicked |} ];
     current_window_handle := "w1";
     pending_alert := None |}.

(** The browser after its window was closed. *)
Definition closed_browser : browser_t :=
  {| alive := false; tabs := []; current_window_handle := "w1"; pending_alert := None |}.


Definition cart_result : tab_result :=
  {| r_url := page_url; r_content := cart_html; r_is_new := false; r_events := [] |}.

(** [<input type="text" name="API_Token_v2">]. *)
Definition mixed_case_input : element := plain_element "INPUT" "text" "API_Token_v2" "t0k3n".

(** The statistics of [legacy_db]: one HTML row, written at time 0. *)
Definition legacy_stats : db_stats :=
  {| total := 1; content_types := {[ "html" := 1%nat ]}; alerts := 0;
     first_capture := None; latest_capture := None |}.

End MoreSamples.

(** * Properties *)

(** ** The persistence merge *)

Module VectorDbFacts.

Import VectorDb.

Lemma ensure_connection_table e db db1 :
  ensure_connection e db = Some db1 -> table db1 = table db /\ PG_CONN db1 = true.
Proof.
  unfold ensure_connection, connect_to_db.
  destruct (PG_CONN db) eqn:Hc; [intros [= <-]; done|].
  destruct (server_up e); simpl; [intros [= <-]; done | discriminate].
Qed.

Lemma ensure_connection_reachable e db :
  PG_CONN db || server_up e = true -> exists db1, ensure_connection e db = Some db1.
Proof.
  unfold ensure_connection, connect_to_db.
  destruct (PG_CONN db); simpl; [eauto|]. intros ->. simpl. eauto.
Qed.

Lemma ensure_connection_connected e db :
  PG_CONN db = true -> ensure_connection e db = Some db.
Proof. unfold ensure_connection. by intros ->. Qed.

(** A call either leaves the table as it was or performs the write. *)
Lemma update_page_actions_table e url actions sid db :
  table (snd (update_page_actions e url actions sid db)) = table db \/
  exists a l, actions = JArr (a :: l) /\ url <> "" /\
    table (snd (update_page_actions e url actions sid db))
      = write_actions e url (a :: l) sid (table db).
Proof.
  unfold update_page_actions.
  destruct (ensure_connection e db) as [db1|] eqn:Hc; [|by left].
  apply ensure_connection_table in Hc as [Ht _].
  destruct actions as [| | | |[|a l]|]; simpl; try (by left).
  case_decide; simpl; [by left|].
  destruct (db_raises e); simpl; [by left|].
  right. exists a, l. by rewrite Ht.
Qed.

(** When the server answers and nothing raises, a non-empty batch for a
    non-empty URL is written. *)
Lemma update_page_actions_writes e url a l sid db :
  PG_CONN db || server_up e = true -> db_raises e = false -> url <> "" ->
  update_page_actions e url (JArr (a :: l)) sid db
  = (true, {| PG_CONN := true; table := write_actions e url (a :: l) sid (table db) |}).
Proof.
  intros Hr Hf Hu. unfold update_page_actions.
  destruct (ensure_connection_reachable _ _ Hr) as [db1 Hc]. rewrite Hc.
  apply ensure_connection_table in Hc as [Ht Hconn].
  rewrite decide_False by done. rewrite Hf. unfold set_table. by rewrite Ht, Hconn.
Qed.

Lemma write_actions_lookup e url actions sid t :
  page_actions <$> write_actions e url actions sid t !! url
  = Some (JObj (merged (page_actions <$> t !! url) (session_key sid) actions)).
Proof.
  unfold write_actions. destruct (t !! url) as [r|]; by rewrite lookup_insert_eq.
Qed.

Lemma write_actions_lookup_ne e url actions sid t u :
  u <> url -> write_actions e url actions sid t !! u = t !! u.
Proof.
  intros Hne. unfold write_actions.
  destruct (t !! url); by rewrite lookup_insert_ne.
Qed.

(** Merging into a mapping touches one key only. *)
Lemma merge_existing_other m key key' actions :
  key' <> key -> merge_existing (JObj m) key actions !! key' = m !! key'.
Proof.
  intros Hne. simpl.
  destruct (m !! key) as [[]|]; by rewrite lookup_insert_ne.
Qed.

(** Two merges under different keys commute on the content of the column. *)
Lemma merged_commute before k1 k2 a1 a2 :
  k1 <> k2 ->
  (legacy_store before -> k1 <> legacy_default /\ k2 <> legacy_default) ->
  merged (Some (JObj (merged before k1 a1))) k2 a2
  = merged (Some (JObj (merged before k2 a2))) k1 a1.
Proof.
  intros Hne Hleg.
  destruct before as [[| | | |old|m]|]; simpl.
  1-4, 7:
    rewrite !lookup_singleton_ne by done;
    rewrite <- !insert_empty; by apply insert_insert_ne.
  - destruct Hleg as [H1 H2]; [by eexists|].
    rewrite !lookup_insert_ne by done.
    rewrite !lookup_singleton_ne by done.
    by apply insert_insert_ne.
  - destruct (m !! k1) as [[| | | |l1|]|] eqn:E1;
    destruct (m !! k2) as [[| | | |l2|]|] eqn:E2;
    rewrite ?lookup_insert_ne, ?E1, ?E2 by done;
    by apply insert_insert_ne.
Qed.

(** C1: merging a non-empty batch under session key S into a
    session-partitioned store leaves the list under every other key as it
    was, whatever the database does (write, failure or roll-back). *)
Theorem update_page_actions_other_sessions_unchanged
    e url (batch : list json) sid db r (m : gmap string json) (S' : string) :
  table db !! url = Some r ->
  page_actions r = JObj m ->
  batch <> [] ->
  S' <> session_key sid ->
  exists m' : gmap string json,
    stored_actions (snd (update_page_actions e url (JArr batch) sid db)) url = Some (JObj m')
    /\ m' !! S' = m !! S'.
Proof.
  intros Hrow Hm _ Hne.
  destruct (update_page_actions_table e url (JArr batch) sid db) as [Hsame|(a & l & _ & _ & Hw)].
  - exists m. unfold stored_actions. rewrite Hsame, Hrow. simpl. by rewrite Hm.
  - exists (merge_existing (JObj m) (session_key sid) (a :: l)). split.
    + unfold stored_actions. rewrite Hw, write_actions_lookup, Hrow. simpl. by rewrite Hm.
    + by apply merge_existing_other.
Qed.

Lemma session_key_id (s : string) : s <> "" -> session_key (Some s) = s.
Proof. intros Hs. unfold session_key. by rewrite decide_False. Qed.

(** The column written over a legacy flat list. *)
Lemma update_page_actions_over_legacy e url (batch legacy : list json) sid db r :
  table db !! url = Some r ->
  page_actions r = JArr legacy ->
  batch <> [] ->
  url <> "" ->
  PG_CONN db || server_up e = true ->
  db_raises e = false ->
  stored_actions (snd (update_page_actions e url (JArr batch) sid db)) url
  = Some (JObj (<[ session_key sid := JArr batch ]> {[ "legacy_default" := JArr legacy ]})).
Proof.
  intros Hrow Hleg Hb Hu Hr Hf.
  destruct batch as [|a l]; [done|].
  rewrite update_page_actions_writes by done.
  unfold stored_actions. simpl table.
  rewrite write_actions_lookup, Hrow. simpl. by rewrite Hleg.
Qed.

(** C5 (defect): the migration of a legacy flat list drops the list when the
    session id is the reserved key.  For a session id [s] that is not empty
    and is not ["legacy_default"], the column becomes exactly
    [{"legacy_default": legacy, s: batch}].  For the session id
    ["legacy_default"] the two keys of the dictionary literal at line 212
    coincide and the column becomes [{"legacy_default": batch}]: every
    legacy entry is gone, as the run on [[a, b]] and [[c]] shows. *)
Theorem update_page_actions_legacy_key_collision :
  (forall e url (batch legacy : list json) (s : string) db r,
     table db !! url = Some r ->
     page_actions r = JArr legacy ->
     batch <> [] ->
     url <> "" ->
     PG_CONN db || server_up e = true ->
     db_raises e = false ->
     s <> "" ->
     s <> "legacy_default" ->
     stored_actions (snd (update_page_actions e url (JArr batch) (Some s) db)) url
     = Some (JObj (<[ s := JArr batch ]> {[ "legacy_default" := JArr legacy ]}))
     /\ list_under "legacy_default"
          (JObj (<[ s := JArr batch ]> {[ "legacy_default" := JArr legacy ]})) = legacy
     /\ list_under s
          (JObj (<[ s := JArr batch ]> {[ "legacy_default" := JArr legacy ]})) = batch)
  /\
  (forall e url (batch legacy : list json) db r,
     table db !! url = Some r ->
     page_actions r = JArr legacy ->
     batch <> [] ->
     url <> "" ->
     PG_CONN db || server_up e = true ->
     db_raises e = false ->
     stored_actions
       (snd (update_page_actions e url (JArr batch) (Some "legacy_default") db)) url
     = Some (JObj {[ "legacy_default" := JArr batch ]}))
  /\
  (stored_actions
     (snd (update_page_actions Samples.env_ok Samples.page_url (JArr [Samples.c])
             (Some "legacy_default") Samples.legacy_db)) Samples.page_url
   = Some (JObj {[ "legacy_default" := JArr [Samples.c] ]})
   /\ session_list
        (snd (update_page_actions Samples.env_ok Samples.page_url (JArr [Samples.c])
                (Some "legacy_default") Samples.legacy_db)) Samples.page_url "legacy_default"
      = [Samples.c]
   /\ session_list Samples.legacy_db Samples.page_url "legacy_default" = []
   /\ stored_actions Samples.legacy_db Samples.page_url
      = Some (JArr [Samples.a; Samples.b])).
Proof.
  split; [|split].
  - intros e url batch legacy s db r Hrow Hleg Hb Hu Hr Hf Hs Hk.
    rewrite (update_page_actions_over_legacy e url batch legacy (Some s) db r) by done.
    rewrite (session_key_id s Hs). split; [done|]. split; simpl.
    + rewrite lookup_insert_ne by done. by rewrite lookup_singleton_eq.
    + by rewrite lookup_insert_eq.
  - intros e url batch legacy db r Hrow Hleg Hb Hu Hr Hf.
    rewrite (update_page_actions_over_legacy e url batch legacy _ db r) by done.
    rewrite session_key_id by done. by rewrite insert_singleton.
  - repeat split; vm_compute; reflexivity.
Qed.

(** A call without a connection and without a server changes nothing; any
    other call leaves a connection and applies the batch. *)
Lemma update_page_actions_unreachable e url actions sid db :
  ensure_connection e db = None ->
  snd (update_page_actions e url actions sid db) = db.
Proof. unfold update_page_actions. by intros ->. Qed.

Lemma update_page_actions_apply e url actions sid db db1 :
  ensure_connection e db = Some db1 ->
  PG_CONN (snd (update_page_actions e url actions sid db)) = true /\
  table (snd (update_page_actions e url actions sid db))
    = apply_batch e url actions sid (table db).
Proof.
  intros Hc. unfold update_page_actions, apply_batch. rewrite Hc.
  apply ensure_connection_table in Hc as [Ht Hconn].
  destruct actions as [| | | |[|a l]|]; simpl; try done.
  case_decide; simpl; [done|].
  destruct (db_raises e); simpl; [done|]. by rewrite Ht.
Qed.

Lemma apply_batch_commute e url (b1 b2 : list json) s1 s2 t u :
  session_key s1 <> session_key s2 ->
  (legacy_store (page_actions <$> t !! url) ->
     session_key s1 <> legacy_default /\ session_key s2 <> legacy_default) ->
  page_actions <$> apply_batch e url (JArr b2) s2 (apply_batch e url (JArr b1) s1 t) !! u
  = page_actions <$> apply_batch e url (JArr b1) s1 (apply_batch e url (JArr b2) s2 t) !! u.
Proof.
  intros Hne Hleg. unfold apply_batch.
  destruct b1 as [|a1 l1], b2 as [|a2 l2]; try done.
  case_decide; [done|]. destruct (db_raises e); [done|].
  destruct (decide (u = url)) as [->|Hu].
  - rewrite !write_actions_lookup. do 2 f_equal. by apply merged_commute.
  - by rewrite !write_actions_lookup_ne.
Qed.

Lemma update_page_actions_commute_keys
    e url (b1 b2 : list json) s1 s2 db (u : string) :
  session_key s1 <> session_key s2 ->
  (legacy_store (stored_actions db url) ->
     session_key s1 <> legacy_default /\ session_key s2 <> legacy_default) ->
  stored_actions
    (snd (update_page_actions e url (JArr b2) s2
       (snd (update_page_actions e url (JArr b1) s1 db)))) u
  = stored_actions
    (snd (update_page_actions e url (JArr b1) s1
       (snd (update_page_actions e url (JArr b2) s2 db)))) u.
Proof.
  intros Hne Hleg.
  destruct (ensure_connection e db) as [db1|] eqn:Hc.
  - destruct (update_page_actions_apply e url (JArr b1) s1 db db1 Hc) as [C1 T1].
    destruct (update_page_actions_apply e url (JArr b2) s2 db db1 Hc) as [C2 T2].
    apply ensure_connection_connected with (e := e) in C1, C2.
    destruct (update_page_actions_apply e url (JArr b2) s2 _ _ C1) as [_ T12].
    destruct (update_page_actions_apply e url (JArr b1) s1 _ _ C2) as [_ T21].
    unfold stored_actions. rewrite T12, T21, T1, T2.
    by apply apply_batch_commute.
  - by rewrite !(update_page_actions_unreachable e url _ _ db Hc).
Qed.

(** C7 (defect): merges under two distinct session ids do not commute on a
    legacy flat list when one of the ids is the reserved key.  The two
    orders give the same column for every URL when the column of [url] is
    not a legacy list, and also on a legacy list when neither id is
    ["legacy_default"].  On the legacy list [[a, b]], the batch [[c]] under
    ["legacy_default"] and the batch [[b]] under ["s2"] give
    [{"legacy_default": [c], "s2": [b]}] in one order and
    [{"legacy_default": [a, b, c], "s2": [b]}] in the other. *)
Theorem update_page_actions_order_on_legacy :
  (forall e url (b1 b2 : list json) (s1 s2 : string) db (u : string),
     s1 <> s2 -> s1 <> "" -> s2 <> "" ->
     (legacy_store (stored_actions db url) ->
        s1 <> "legacy_default" /\ s2 <> "legacy_default") ->
     stored_actions
       (snd (update_page_actions e url (JArr b2) (Some s2)
          (snd (update_page_actions e url (JArr b1) (Some s1) db)))) u
     = stored_actions
       (snd (update_page_actions e url (JArr b1) (Some s1)
          (snd (update_page_actions e url (JArr b2) (Some s2) db)))) u)
  /\
  (stored_actions
     (snd (update_page_actions Samples.env_ok Samples.page_url (JArr [Samples.b]) (Some "s2")
        (snd (update_page_actions Samples.env_ok Samples.page_url (JArr [Samples.c])
                (Some "legacy_default") Samples.legacy_db)))) Samples.page_url
   = Some (JObj (<[ "s2" := JArr [Samples.b] ]>
                   {[ "legacy_default" := JArr [Samples.c] ]}))
   /\
   stored_actions
     (snd (update_page_actions Samples.env_ok Samples.page_url (JArr [Samples.c])
             (Some "legacy_default")
        (snd (update_page_actions Samples.env_ok Samples.page_url (JArr [Samples.b])
                (Some "s2") Samples.legacy_db)))) Samples.page_url
   = Some (JObj (<[ "s2" := JArr [Samples.b] ]>
                   {[ "legacy_default" := JArr [Samples.a; Samples.b; Samples.c] ]}))
   /\
   stored_actions
     (snd (update_page_actions Samples.env_ok Samples.page_url (JArr [Samples.b]) (Some "s2")
        (snd (update_page_actions Samples.env_ok Samples.page_url (JArr [Samples.c])
                (Some "legacy_default") Samples.legacy_db)))) Samples.page_url
   <> stored_actions
     (snd (update_page_actions Samples.env_ok Samples.page_url (JArr [Samples.c])
             (Some "legacy_default")
        (snd (update_page_actions Samples.env_ok Samples.page_url (JArr [Samples.b])
                (Some "s2") Samples.legacy_db)))) Samples.page_url).
Proof.
  split.
  - intros e url b1 b2 s1 s2 db u Hne H1 H2 Hleg.
    apply update_page_actions_commute_keys; rewrite !session_key_id by done; done.
  - split; [vm_compute; reflexivity|]. split; [vm_compute; reflexivity|].
    vm_compute. discriminate.
Qed.

(** C8: a call with an empty batch writes nothing: the table, for this URL
    and every other, is the one before the call. *)
Theorem update_page_actions_empty_batch_no_write e url sid db :
  table (snd (update_page_actions e url (JArr []) sid db)) = table db.
Proof.
  destruct (update_page_actions_table e url (JArr []) sid db) as [H|(a & l & [=] & _)]; done.
Qed.

Import Samples.

(** The two keys the store sets aside.  A missing or empty session id shares
    the key [session_unknown] with the id of that name, and a batch merged
    into a legacy list under the id [legacy_default] takes the place of the
    legacy list. *)
Remark reserved_keys :
  session_key None = session_unknown
  /\ session_key (Some "") = session_unknown
  /\ session_key (Some "session_unknown") = session_unknown
  /\ stored_actions
       (snd (update_page_actions env_ok page_url (JArr [c]) (Some "legacy_default") legacy_db))
       page_url
     = Some (JObj {[ legacy_default := JArr [c] ]}).
Proof. repeat split; vm_compute; reflexivity. Qed.

Lemma update_page_actions_other_sessions_unchanged_witness :
  table partitioned_db !! page_url = Some partitioned_row /\
  exists m' : gmap string json,
    stored_actions (snd (update_page_actions env_ok page_url (JArr [c]) (Some "s1") partitioned_db))
      page_url = Some (JObj m')
    /\ m' !! "s2" = two_sessions !! "s2".
Proof.
  split; [reflexivity|].
  apply (update_page_actions_other_sessions_unchanged
           env_ok page_url [c] (Some "s1") partitioned_db partitioned_row two_sessions "s2").
  - reflexivity.
  - reflexivity.
  - discriminate.
  - vm_compute. discriminate.
Defined.

Lemma update_page_actions_legacy_key_collision_witness :
  stored_actions (snd (update_page_actions env_ok page_url (JArr [c]) (Some "s1") legacy_db))
    page_url
  = Some (JObj (<[ "s1" := JArr [c] ]> {[ "legacy_default" := JArr [a; b] ]}))
  /\ list_under "legacy_default"
       (JObj (<[ "s1" := JArr [c] ]> {[ "legacy_default" := JArr [a; b] ]})) = [a; b]
  /\ list_under "s1"
       (JObj (<[ "s1" := JArr [c] ]> {[ "legacy_default" := JArr [a; b] ]})) = [c].
Proof.
  apply (proj1 update_page_actions_legacy_key_collision
           env_ok page_url [c] [a; b] "s1" legacy_db legacy_row).
  - reflexivity.
  - reflexivity.
  - discriminate.
  - discriminate.
  - reflexivity.
  - reflexivity.
  - discriminate.
  - discriminate.
Defined.

Lemma update_page_actions_order_on_legacy_witness :
  stored_actions
    (snd (update_page_actions env_ok page_url (JArr [b]) (Some "s2")
       (snd (update_page_actions env_ok page_url (JArr [c]) (Some "s1") legacy_db)))) page_url
  = stored_actions
    (snd (update_page_actions env_ok page_url (JArr [c]) (Some "s1")
       (snd (update_page_actions env_ok page_url (JArr [b]) (Some "s2") legacy_db)))) page_url.
Proof.
  apply (proj1 update_page_actions_order_on_legacy
           env_ok page_url [c] [b] "s1" "s2" legacy_db page_url).
  - discriminate.
  - discriminate.
  - discriminate.
  - intros _. split; discriminate.
Defined.

End VectorDbFacts.

(** ** The capture script *)

Module PageFacts.

Import Page.











Import Samples.



End PageFacts.

(** ** The capture loop *)

Module ControllerFacts.

Import VectorDb Page Controller VectorDbFacts.

(** *** Routing of batches to the store *)

(** A write under a key appends to what the column held under that key. *)
Lemma merged_list_under before key (actions : list json) :
  list_under key (JObj (merged before key actions))
  = from_option (list_under key) [] before ++ actions.
Proof.
  destruct before as [[| | | |old|m]|]; simpl;
    rewrite ?lookup_singleton_eq, ?lookup_insert_eq; try done.
  destruct (m !! key) as [[| | | |l|]|]; by rewrite lookup_insert_eq.
Qed.

Lemma session_list_written e url a l sid db :
  PG_CONN db || server_up e = true -> db_raises e = false -> url <> "" ->
  session_list (snd (update_page_actions e url (JArr (a :: l)) sid db)) url (session_key sid)
  = session_list db url (session_key sid) ++ a :: l.
Proof.
  intros Hr Hf Hu. rewrite update_page_actions_writes by done.
  unfold session_list, stored_actions. simpl.
  rewrite write_actions_lookup. simpl. apply merged_list_under.
Qed.

(** What one call of [process_new_actions] with a non-empty batch does. *)
Lemma process_new_actions_cons e url x l st :
  page_action_logs (process_new_actions e url (x :: l) st)
    = <[ url := default [] (page_action_logs st !! url) ++ x :: l ]> (page_action_logs st) /\
  db (process_new_actions e url (x :: l) st)
    = snd (update_page_actions (pg_e e) url
             (JArr (default [] (page_action_logs st !! url) ++ x :: l)) None (db st)).
Proof. done. Qed.

(** C2: two successive non-empty batches for a URL.  The buffer of the URL
    accumulates them, each call hands the whole buffer to
    [update_page_actions], and the list under the session key grows by
    [B1 ++ B1 ++ B2]: the first batch is persisted twice. *)
Theorem process_new_actions_persists_whole_buffer e1 e2 url (B1 B2 : list json) st :
  B1 <> [] ->
  B2 <> [] ->
  url <> "" ->
  page_action_logs st !! url = None ->
  PG_CONN (db st) || server_up (pg_e e1) = true ->
  db_raises (pg_e e1) = false ->
  db_raises (pg_e e2) = false ->
  let st1 := process_new_actions e1 url B1 st in
  let st2 := process_new_actions e2 url B2 st1 in
  page_action_logs st1 !! url = Some B1
  /\ page_action_logs st2 !! url = Some (B1 ++ B2)
  /\ db st1 = snd (update_page_actions (pg_e e1) url (JArr B1) None (db st))
  /\ db st2 = snd (update_page_actions (pg_e e2) url (JArr (B1 ++ B2)) None (db st1))
  /\ session_list (db st2) url session_unknown
     = session_list (db st) url session_unknown ++ B1 ++ B1 ++ B2
  /\ session_list (db st2) url session_unknown
     <> session_list (db st) url session_unknown ++ B1 ++ B2.
Proof.
  intros H1 H2 Hu Hlog Hr Hf1 Hf2 st1 st2.
  destruct B1 as [|x1 l1]; [done|]. destruct B2 as [|x2 l2]; [done|].
  assert (L1 : page_action_logs st1 = <[ url := x1 :: l1 ]> (page_action_logs st)).
  { unfold st1. rewrite (proj1 (process_new_actions_cons e1 url x1 l1 st)). by rewrite Hlog. }
  assert (D1 : db st1 = snd (update_page_actions (pg_e e1) url (JArr (x1 :: l1)) None (db st))).
  { unfold st1. rewrite (proj2 (process_new_actions_cons e1 url x1 l1 st)). by rewrite Hlog. }
  assert (Hlog1 : page_action_logs st1 !! url = Some (x1 :: l1))
    by (rewrite L1; apply lookup_insert_eq).
  assert (L2 : page_action_logs st2
               = <[ url := (x1 :: l1) ++ x2 :: l2 ]> (page_action_logs st1)).
  { unfold st2. rewrite (proj1 (process_new_actions_cons e2 url x2 l2 st1)). by rewrite Hlog1. }
  assert (D2 : db st2 = snd (update_page_actions (pg_e e2) url
                               (JArr ((x1 :: l1) ++ x2 :: l2)) None (db st1))).
  { unfold st2. rewrite (proj2 (process_new_actions_cons e2 url x2 l2 st1)). by rewrite Hlog1. }
  assert (Hconn1 : PG_CONN (db st1) = true).
  { rewrite D1, update_page_actions_writes by done. done. }
  assert (Hlist : session_list (db st2) url session_unknown
                  = session_list (db st) url session_unknown
                    ++ (x1 :: l1) ++ (x1 :: l1) ++ x2 :: l2).
  { pose proof (session_list_written (pg_e e2) url x1 (l1 ++ x2 :: l2) None (db st1)) as W2.
    pose proof (session_list_written (pg_e e1) url x1 l1 None (db st)) as W1.
    change (session_key None) with session_unknown in W1, W2.
    rewrite D2. change ((x1 :: l1) ++ x2 :: l2) with (x1 :: l1 ++ x2 :: l2).
    rewrite W2; [|by rewrite Hconn1|done..].
    rewrite D1, W1 by done. by rewrite <- app_assoc. }
  repeat split; try done.
  - rewrite L2. apply lookup_insert_eq.
  - rewrite Hlist. intros Heq. apply app_inv_head in Heq.
    apply (f_equal (@List.length json)) in Heq.
    rewrite !length_app in Heq. simpl in Heq. lia.
Qed.

Import Samples.

Lemma process_new_actions_persists_whole_buffer_witness :
  let st2 := process_new_actions world_ok page_url [b]
               (process_new_actions world_ok page_url [a] (running (one_tab page_url fresh_page None))) in
  session_list (db (running (one_tab page_url fresh_page None))) page_url session_unknown = []
  /\ session_list (db st2) page_url session_unknown = [] ++ [a] ++ [a] ++ [b].
Proof.
  split; [reflexivity|].
  apply (process_new_actions_persists_whole_buffer world_ok world_ok page_url [a] [b]
           (running (one_tab page_url fresh_page None))).
  - discriminate.
  - discriminate.
  - discriminate.
  - reflexivity.
  - reflexivity.
  - reflexivity.
  - reflexivity.
Defined.

(** C3 (defect): [process_new_actions] calls [update_page_actions] without a
    session id, whatever the current recording session is; during session
    [s1] a batch lands under [session_unknown] and nothing is stored under
    [s1]. *)
Theorem process_new_actions_ignores_recording_session :
  (forall e url x l st,
     db (process_new_actions e url (x :: l) st)
     = snd (update_page_actions (pg_e e) url
              (JArr (default [] (page_action_logs st !! url) ++ x :: l)) None (db st)))
  /\ current_session (running (one_tab page_url fresh_page None)) = Some "s1"
  /\ stored_actions
       (db (process_new_actions world_ok page_url [a] (running (one_tab page_url fresh_page None))))
       page_url
     = Some (JObj {[ session_unknown := JArr [a] ]})
  /\ session_list
       (db (process_new_actions world_ok page_url [a] (running (one_tab page_url fresh_page None))))
       page_url "s1" = [].
Proof.
  split; [intros; apply process_new_actions_cons|].
  split; [reflexivity|]. split; vm_compute; reflexivity.
Qed.

(** *** Draining *)

Lemma execute_script_drain_result b : snd (execute_script drain_script b) = None.
Proof. unfold execute_script. by destruct (current_tab b). Qed.

(** C6 (defect): the page function swaps the queue for an empty one and
    returns the old queue, but the script never returns that value to the
    driver, so [drain_action_queue] yields the empty batch every time; on a
    page with one queued action the action is removed from the page and
    reaches nobody. *)
Theorem drain_action_queue_returns_empty_batch :
  (forall b, snd (drain_action_queue b) = [])
  /\ (exists action,
        flowActionQueue clicked_page = Some [action]
        /\ snd (drain_iife clicked_page) = [action]
        /\ flowActionQueue (fst (drain_iife clicked_page)) = Some []
        /\ drain_action_queue (one_tab page_url clicked_page None)
           = (one_tab page_url (fst (drain_iife clicked_page)) None, [])
        /\ drain_action_queue (one_tab page_url (fst (drain_iife clicked_page)) None)
           = (one_tab page_url (fst (drain_iife clicked_page)) None, [])).
Proof.
  split.
  - intros b. unfold drain_action_queue.
    destruct (is_browser_alive b); [|done].
    destruct (execute_script drain_script b) as [b' r] eqn:E.
    pose proof (execute_script_drain_result b) as Hr. rewrite E in Hr. simpl in Hr. by subst r.
  - eexists. repeat split; vm_compute; reflexivity.
Qed.

(** *** Dialogs *)

Lemma store_in_pgvector_other html_text e cs url content md sid db u :
  u <> url ->
  table (snd (store_in_pgvector html_text e cs url content md sid db)) !! u = table db !! u.
Proof.
  intros Hne. unfold store_in_pgvector.
  destruct (ensure_connection e db) as [db1|] eqn:Hc; [|done].
  apply ensure_connection_table in Hc as [Ht _].
  destruct (db_raises e); simpl; [by rewrite Ht|].
  destruct (if decide (content = "") then _ else _) as [text ctype].
  simpl. rewrite lookup_insert_ne by done. by rewrite Ht.
Qed.

Lemma store_in_pgvector_alert html_text e cs url body md sid db :
  PG_CONN db || server_up e = true -> db_raises e = false ->
  body <> "" -> meta_is_alert md = true ->
  exists r,
    table (snd (store_in_pgvector html_text e cs url body md sid db)) !! url = Some r
    /\ is_alert r = true /\ content_type r = "alert" /\ content r = Some body.
Proof.
  intros Hr Hf Hc Hal. unfold store_in_pgvector.
  destruct (ensure_connection_reachable _ _ Hr) as [db1 ->].
  rewrite Hf, decide_False, Hal by done. simpl.
  eexists. split; [apply lookup_insert_eq|]. done.
Qed.

Lemma record_action_effects html_text e url md content ref st :
  trace (record_action html_text e url md content ref st)
    = trace st ++ [EvNeo4j url md ref (current_session st)]
  /\ browser (record_action html_text e url md content ref st) = browser st
  /\ db (record_action html_text e url md content ref st)
     = snd (store_in_pgvector html_text (pg_e e) (current_session st) url content md
              (current_session st) (db st)).
Proof. unfold record_action. by destruct (flows st !! url). Qed.

(** C9 (defect): [check_alerts] never handles a dialog.  Without a dialog
    it answers [False] and changes nothing, as the claim says.  With a
    dialog it reads [browser.current_url] while the dialog is open; the
    driver dismisses the dialog and raises, and the bare [except] returns
    [False].  So for every state the answer is [False], nothing is recorded
    and no notice is sent, and no dialog is open afterwards although
    [alert.accept()] was never called; the iteration of the loop then goes
    on to enumerate the tabs. *)
Theorem check_alerts_never_handles_dialog :
  (forall (html_text : string -> string) e st,
     pending_alert (browser st) = None ->
     check_alerts html_text e st = (false, st))
  /\
  (forall (html_text : string -> string) e st,
     fst (check_alerts html_text e st) = false
     /\ pending_alert (browser (snd (check_alerts html_text e st))) = None
     /\ trace (snd (check_alerts html_text e st)) = trace st
     /\ db (snd (check_alerts html_text e st)) = db st
     /\ flows (snd (check_alerts html_text e st)) = flows st)
  /\ check_alerts MoreSamples.whole_text Samples.world_ok
       (Samples.running (Samples.one_tab Samples.page_url Samples.fresh_page
                           (Some "Delete item?")))
     = (false, Samples.running (Samples.one_tab Samples.page_url Samples.fresh_page None))
  /\ exists st' loc',
       loop_body MoreSamples.length_hash MoreSamples.whole_text MoreSamples.title_only
         Samples.world_ok
         (Samples.running (Samples.one_tab Samples.page_url Samples.fresh_page
                             (Some "Delete item?")))
         Samples.no_locals
       = (Continue, st', loc')
       /\ trace st'
          = [ EvEnumerate;
              EvNeo4j Samples.page_url (MoreSamples.title_only "<html></html>") None (Some "s1");
              EvStatus "Captured new page: https://shop.test/cart";
              EvSleep 1 ].
Proof.
  split; [|split; [|split]].
  - intros html_text e st Hnone. unfold check_alerts. by rewrite Hnone.
  - intros html_text e st. unfold check_alerts, read_current_url.
    by destruct (pending_alert (browser st)) eqn:E.
  - vm_compute. reflexivity.
  - eexists _, _. split; vm_compute; reflexivity.
Qed.

Lemma check_alerts_never_handles_dialog_witness :
  check_alerts MoreSamples.whole_text Samples.world_ok
    (Samples.running (Samples.one_tab Samples.page_url Samples.fresh_page None))
  = (false, Samples.running (Samples.one_tab Samples.page_url Samples.fresh_page None)).
Proof.
  apply (proj1 check_alerts_never_handles_dialog MoreSamples.whole_text Samples.world_ok).
  reflexivity.
Defined.

(** *** Placeholder pages *)

Lemma capture_tab_not_blank e nh st results h :
  Forall not_blank results ->
  Forall not_blank (snd (capture_tab e nh (st, results) h)).
Proof.
  intros Hres. unfold capture_tab.
  destruct (drain_action_queue _) as [b3 pending].
  destruct (current_tab b3) as [t|]; [|done].
  destruct (streq (tab_url t) "about:blank") eqn:Hblank; simpl; [exact Hres|].
  apply Forall_app. split; [exact Hres|].
  apply Forall_singleton. unfold not_blank. simpl.
  intros Heq. unfold streq in Hblank. by apply bool_decide_eq_false in Hblank.
Qed.

Lemma capture_tabs_not_blank e nh handles acc :
  Forall not_blank (snd acc) ->
  Forall not_blank (snd (foldl (capture_tab e nh) acc handles)).
Proof.
  revert acc. induction handles as [|h handles IH]; intros [st results] Hacc.
  - exact Hacc.
  - simpl. apply IH.
    exact (capture_tab_not_blank e nh st results h Hacc).
Qed.

(** C10 (defect of the drain, as for C6): a tab on [about:blank] never
    appears in the results of [capture_all_tabs], so the loop records no
    page for it; but the action queued on such a tab is taken off the page
    and nothing reaches [page_action_logs] or the table, because the drained
    batch comes back empty. *)
Theorem capture_all_tabs_blank_tab :
  (forall e st,
     match capture_all_tabs e st with
     | Some (_, results, _) => Forall not_blank results
     | None => True
     end)
  /\ (forall py_hash html_text extract_metadata,
       exists action st' loc',
         flowActionQueue blank_clicked = Some [action]
         /\ loop_body py_hash html_text extract_metadata world_ok
              (running (one_tab "about:blank" blank_clicked None)) no_locals
            = (Continue, st', loc')
         /\ flows st' = ∅
         /\ processed_urls loc' = ∅
         /\ trace st' = [EvEnumerate; EvSleep 1]
         /\ page_action_logs st' = ∅
         /\ table (db st') = ∅
         /\ (fun t => flowActionQueue (win t)) <$> tabs (browser st') = [Some []]).
Proof.
  split.
  - intros e st. unfold capture_all_tabs.
    destruct (current_tab (browser st)) as [t0|]; [|done].
    destruct (foldl _ _ _) as [st2 results] eqn:E.
    pose proof (capture_tabs_not_blank e
                  (list_to_set (handle <$> tabs (browser st)) ∖ all_windows st)
                  (handle <$> tabs (browser st))
                  (set_all_windows (list_to_set (handle <$> tabs (browser st)))
                     (emit EvEnumerate st), []) (Forall_nil_2 _)) as H.
    by rewrite E in H.
  - intros py_hash html_text extract_metadata.
    eexists _, _, _. split; [vm_compute; reflexivity|].
    split; [vm_compute; reflexivity|].
    repeat split; vm_compute; reflexivity.
Qed.

End ControllerFacts.

(** ** The table: snapshots, actions and read-back *)

Module VectorDbMore.

Import VectorDb VectorDbQueries VectorDbFacts.

(** A snapshot write either leaves the table alone or replaces the row of
    its URL by one that carries the old [page_actions]. *)
Lemma store_in_pgvector_cases html_text e cs url body md sid db :
  table (snd (store_in_pgvector html_text e cs url body md sid db)) = table db \/
  exists r',
    table (snd (store_in_pgvector html_text e cs url body md sid db))
      = <[ url := r' ]> (table db)
    /\ page_actions r' = from_option page_actions JNull (table db !! url)
    /\ is_Some (content r') /\ is_Some (embedding r')
    /\ title r' = meta_title md /\ is_alert r' = meta_is_alert md.
Proof.
  unfold store_in_pgvector.
  destruct (ensure_connection e db) as [db1|] eqn:Hc; [|by left].
  apply ensure_connection_table in Hc as [Ht _].
  destruct (db_raises e); simpl; [by left|].
  destruct (if decide (body = "") then _ else _) as [text ctype].
  right. eexists. simpl. rewrite Ht. split; [reflexivity|]. simpl.
  split; [by destruct (table db !! url)|].
  repeat split; by eexists.
Qed.

Lemma ensure_connection_flag e db :
  PG_CONN db || server_up e = bool_decide (is_Some (ensure_connection e db)).
Proof.
  unfold ensure_connection, connect_to_db.
  destruct (PG_CONN db), (server_up e); reflexivity.
Qed.

(** X1: writing a page snapshot never changes recorded actions: the
    [page_actions] of every existing row is kept, a row created by the
    snapshot has a null column, and so the list under every session key of
    every URL is the same before and after. *)
Theorem store_in_pgvector_keeps_actions
    (html_text : string -> string) e cs url body md sid db (u : string) :
  (stored_actions (snd (store_in_pgvector html_text e cs url body md sid db)) u
     = stored_actions db u
   \/ (u = url /\ table db !! url = None /\
       stored_actions (snd (store_in_pgvector html_text e cs url body md sid db)) u
         = Some JNull))
  /\ forall k,
       session_list (snd (store_in_pgvector html_text e cs url body md sid db)) u k
       = session_list db u k.
Proof.
  unfold session_list, stored_actions.
  destruct (store_in_pgvector_cases html_text e cs url body md sid db)
    as [->|(r' & -> & Hpa & _)]; [by split; [left|]|].
  destruct (decide (u = url)) as [->|Hne].
  - rewrite lookup_insert_eq. simpl. rewrite Hpa.
    destruct (table db !! url) as [r|] eqn:Hrow; simpl.
    + by split; [left|].
    + by split; [right|].
  - rewrite lookup_insert_ne by done. by split; [left|].
Qed.

(** X2: merging actions never changes a page snapshot: an existing row
    keeps its embedding, content, content type, title and alert flag, and
    the rows of the other URLs are left as they are. *)
Theorem update_page_actions_keeps_snapshot e url actions sid db (u : string) r :
  table db !! u = Some r ->
  exists r',
    table (snd (update_page_actions e url actions sid db)) !! u = Some r'
    /\ embedding r' = embedding r
    /\ content r' = content r
    /\ content_type r' = content_type r
    /\ title r' = title r
    /\ is_alert r' = is_alert r
    /\ (u <> url -> r' = r).
Proof.
  intros Hrow.
  destruct (update_page_actions_table e url actions sid db) as [->|(a & l & _ & _ & ->)];
    [by exists r|].
  destruct (decide (u = url)) as [->|Hne].
  - unfold write_actions. rewrite Hrow, lookup_insert_eq. eexists. by repeat split.
  - rewrite write_actions_lookup_ne, Hrow by done. by exists r.
Qed.

(** X3: the flag [update_page_actions] returns.  It is [False] exactly when
    no connection could be made, or when a statement raised while a
    non-empty batch for a non-empty URL was being written; and a call that
    returns [False] has written nothing. *)
Theorem update_page_actions_failure_is_clean e url actions sid db :
  fst (update_page_actions e url actions sid db)
  = (PG_CONN db || server_up e)
    && negb (match actions with
             | JArr (_ :: _) => negb (bool_decide (url = "")) && db_raises e
             | _ => false
             end)
  /\ (fst (update_page_actions e url actions sid db) = true
      \/ table (snd (update_page_actions e url actions sid db)) = table db).
Proof.
  rewrite ensure_connection_flag. unfold update_page_actions.
  destruct (ensure_connection e db) as [db1|] eqn:Hc.
  2: { rewrite bool_decide_eq_false_2 by (by intros [? ?]). by split; [|right]. }
  rewrite bool_decide_eq_true_2 by (by eexists).
  apply ensure_connection_table in Hc as [Ht _].
  destruct actions as [| | | |[|x l]|]; simpl; try (by split; [|left]).
  case_decide.
  - rewrite bool_decide_eq_true_2 by done. by split; [|left].
  - rewrite bool_decide_eq_false_2 by done.
    destruct (db_raises e); simpl; [by split; [|right]|by split; [|left]].
Qed.

Import VectorDbAux ControllerFacts.

(** X4: two merges under the same session key append in call order: the
    list under the key is the earlier list, then the first batch, then the
    second. *)
Theorem update_page_actions_appends_in_order e1 e2 url (b1 b2 : list json) sid db :
  PG_CONN db || server_up e1 = true ->
  db_raises e1 = false ->
  db_raises e2 = false ->
  url <> "" ->
  b1 <> [] ->
  b2 <> [] ->
  session_list
    (snd (update_page_actions e2 url (JArr b2) sid
       (snd (update_page_actions e1 url (JArr b1) sid db)))) url (session_key sid)
  = session_list db url (session_key sid) ++ b1 ++ b2.
Proof.
  intros Hr Hf1 Hf2 Hu H1 H2.
  destruct b1 as [|x1 l1]; [done|]. destruct b2 as [|x2 l2]; [done|].
  rewrite session_list_written; [|by rewrite update_page_actions_writes|done..].
  rewrite session_list_written by done. by rewrite <- app_assoc.
Qed.

(** X5: the first merge for a URL.  When the URL has no row, or a row whose
    column is null, the stored mapping after a successful merge has the
    session key as its only key, with the batch as its list. *)
Theorem update_page_actions_first_batch e url (batch : list json) sid db :
  from_option page_actions JNull (table db !! url) = JNull ->
  PG_CONN db || server_up e = true ->
  db_raises e = false ->
  url <> "" ->
  batch <> [] ->
  stored_actions (snd (update_page_actions e url (JArr batch) sid db)) url
  = Some (JObj {[ session_key sid := JArr batch ]}).
Proof.
  intros Hnull Hr Hf Hu Hb. destruct batch as [|x l]; [done|].
  rewrite update_page_actions_writes by done.
  unfold stored_actions. simpl. rewrite write_actions_lookup.
  destruct (table db !! url) as [r|]; simpl in *; [by rewrite Hnull|done].
Qed.

Lemma store_in_pgvector_apply html_text e cs url body md sid db db1 :
  ensure_connection e db = Some db1 ->
  PG_CONN (snd (store_in_pgvector html_text e cs url body md sid db)) = true /\
  table (snd (store_in_pgvector html_text e cs url body md sid db))
    = apply_snapshot html_text e cs url body md sid (table db).
Proof.
  intros Hc. unfold apply_snapshot, store_in_pgvector. rewrite Hc. simpl.
  apply ensure_connection_table in Hc as [Ht Hconn].
  destruct (db_raises e); simpl; [done|].
  destruct (if decide (body = "") then _ else _) as [text ctype]. simpl.
  by rewrite Ht.
Qed.

Lemma store_in_pgvector_unreachable html_text e cs url body md sid db :
  ensure_connection e db = None ->
  snd (store_in_pgvector html_text e cs url body md sid db) = db.
Proof. unfold store_in_pgvector. by intros ->. Qed.

Lemma apply_snapshot_raises html_text e cs url body md sid t :
  db_raises e = true -> apply_snapshot html_text e cs url body md sid t = t.
Proof. intros Hf. unfold apply_snapshot, store_in_pgvector. simpl. by rewrite Hf. Qed.

(** Without an exception the snapshot is one insertion, of a row that
    depends on the table through the old [page_actions] only and on the
    environment through the clock only. *)
Lemma apply_snapshot_writes html_text cs url body md sid :
  exists emb c ct ti al s',
    forall e t,
      db_raises e = false ->
      apply_snapshot html_text e cs url body md sid t
      = <[ url := {| embedding := emb; content := c; content_type := ct;
                     timestamp := now e; title := ti; is_alert := al;
                     session_id := s';
                     page_actions := from_option page_actions JNull (t !! url) |} ]> t.
Proof.
  unfold apply_snapshot, store_in_pgvector. simpl.
  destruct (if decide (body = "") then _ else _) as [text ctype].
  eexists _, _, _, _, _, _. intros e t Hf. rewrite Hf. simpl.
  by destruct (t !! url).
Qed.

Lemma merged_null_row (o : option row) key actions :
  merge_existing (from_option page_actions JNull o) key actions
  = merged (page_actions <$> o) key actions.
Proof. by destruct o. Qed.

(** The two orders on the table, the first call made in environment [e1]
    and the second in [e2]. *)
Lemma apply_snapshot_batch_commute html_text e1 e2 cs us body md sid_s ua actions sid_a t u :
  db_raises e1 = db_raises e2 ->
  (snapshot_view <$> apply_batch e2 ua actions sid_a
                       (apply_snapshot html_text e1 cs us body md sid_s t) !! u
   = snapshot_view <$> apply_snapshot html_text e2 cs us body md sid_s
                         (apply_batch e1 ua actions sid_a t) !! u)
  /\ (now e1 = now e2 ->
      timestamp <$> apply_batch e2 ua actions sid_a
                      (apply_snapshot html_text e1 cs us body md sid_s t) !! u
      = timestamp <$> apply_snapshot html_text e2 cs us body md sid_s
                        (apply_batch e1 ua actions sid_a t) !! u).
Proof.
  intros Hraise.
  destruct (db_raises e1) eqn:Hf1; symmetry in Hraise.
  { rewrite !apply_snapshot_raises by done. unfold apply_batch. rewrite Hf1, Hraise.
    split; [|intros _]; destruct actions as [| | | |[|x l]|]; try done; by case_decide. }
  destruct (apply_snapshot_writes html_text cs us body md sid_s)
    as (emb & c & ct & ti & al & s' & Hsnap).
  rewrite !Hsnap by done. unfold apply_batch. rewrite Hf1, Hraise.
  destruct actions as [| | | |[|x l]|];
    try (split; [|intros Hn]; destruct (decide (u = us)) as [->|Hus];
         rewrite ?lookup_insert_eq, ?lookup_insert_ne by done;
         unfold snapshot_view; simpl; congruence).
  case_decide.
  { split; [|intros Hn]; destruct (decide (u = us)) as [->|Hus];
      rewrite ?lookup_insert_eq, ?lookup_insert_ne by done;
      unfold snapshot_view; simpl; congruence. }
  destruct (decide (us = ua)) as [->|Hne].
  - destruct (decide (u = ua)) as [->|Hu].
    + rewrite lookup_insert_eq.
      pose proof (write_actions_lookup e1 ua (x :: l) sid_a t) as Hw.
      destruct (write_actions e1 ua (x :: l) sid_a t !! ua) as [rw|] eqn:Erw; [|done].
      simpl in Hw. injection Hw as Hw. simpl. rewrite Hw.
      unfold write_actions at 1 2. rewrite !lookup_insert_eq. simpl.
      unfold snapshot_view. simpl. by rewrite merged_null_row.
    + rewrite !lookup_insert_ne by done.
      rewrite !write_actions_lookup_ne by done. by rewrite !lookup_insert_ne.
  - destruct (decide (u = us)) as [->|Hus].
    + rewrite ?lookup_insert_eq, ?write_actions_lookup_ne, ?lookup_insert_eq by done.
      rewrite ?write_actions_lookup_ne by done. simpl. split; [done|by intros ->].
    + rewrite !lookup_insert_ne by done.
      destruct (decide (u = ua)) as [->|Hua].
      * unfold write_actions. rewrite !lookup_insert_ne by done.
        destruct (t !! ua); rewrite !lookup_insert_eq; simpl;
          (split; [done|by intros ->]).
      * rewrite !write_actions_lookup_ne by done. by rewrite !lookup_insert_ne.
Qed.

Lemma ensure_connection_unreachable e1 e2 db :
  server_up e1 = server_up e2 ->
  ensure_connection e1 db = None -> ensure_connection e2 db = None.
Proof.
  unfold ensure_connection, connect_to_db. intros <-.
  destruct (PG_CONN db); [done|]. by destruct (server_up e1).
Qed.

(** X6: a snapshot write and a merge of actions can come in either order.
    Each call reads the clock for itself: the first call is made in
    environment [e1] and the second in [e2], which answer alike but may show
    different times.  For every URL the row afterwards has the same
    embedding, content, content type, title, alert flag and [page_actions]
    in both orders; the [timestamp] is the same when the two calls read the
    same time (it is the time of the later write to the row, like the
    [session_id]). *)
Theorem snapshot_and_actions_commute
    (html_text : string -> string) e1 e2 cs us body md sid_s ua actions sid_a db (u : string) :
  server_up e1 = server_up e2 ->
  db_raises e1 = db_raises e2 ->
  (snapshot_view <$> table
     (snd (update_page_actions e2 ua actions sid_a
        (snd (store_in_pgvector html_text e1 cs us body md sid_s db)))) !! u
   = snapshot_view <$> table
     (snd (store_in_pgvector html_text e2 cs us body md sid_s
        (snd (update_page_actions e1 ua actions sid_a db)))) !! u)
  /\ (now e1 = now e2 ->
      timestamp <$> table
        (snd (update_page_actions e2 ua actions sid_a
           (snd (store_in_pgvector html_text e1 cs us body md sid_s db)))) !! u
      = timestamp <$> table
        (snd (store_in_pgvector html_text e2 cs us body md sid_s
           (snd (update_page_actions e1 ua actions sid_a db)))) !! u).
Proof.
  intros Hup Hraise.
  destruct (ensure_connection e1 db) as [db1|] eqn:Hc.
  - destruct (store_in_pgvector_apply html_text e1 cs us body md sid_s db db1 Hc) as [C1 T1].
    destruct (update_page_actions_apply e1 ua actions sid_a db db1 Hc) as [C2 T2].
    apply ensure_connection_connected with (e := e2) in C1, C2.
    destruct (update_page_actions_apply e2 ua actions sid_a _ _ C1) as [_ T12].
    destruct (store_in_pgvector_apply html_text e2 cs us body md sid_s _ _ C2) as [_ T21].
    rewrite T12, T21, T1, T2. by apply apply_snapshot_batch_commute.
  - pose proof (ensure_connection_unreachable e1 e2 db Hup Hc) as Hc2.
    rewrite (store_in_pgvector_unreachable _ e1 _ _ _ _ _ _ Hc),
            (update_page_actions_unreachable e1 _ _ _ _ Hc),
            (store_in_pgvector_unreachable _ e2 _ _ _ _ _ _ Hc2),
            (update_page_actions_unreachable e2 _ _ _ _ Hc2).
    done.
Qed.

(** *** Reading back *)

(** X7: what a successful snapshot write stores is what
    [get_page_content] reads back: the extracted text (the alert text as it
    is for an alert, a fixed notice for empty content), its type, the title
    and alert flag of the metadata, the time of the write, and the
    [page_actions] the row had before. *)
Theorem get_page_content_after_store
    (fmt : Z -> string) (html_text : string -> string) e e' cs url body md sid db :
  PG_CONN db || server_up e = true ->
  db_raises e = false ->
  db_raises e' = false ->
  exists info,
    fst (get_page_content fmt e' url
           (snd (store_in_pgvector html_text e cs url body md sid db))) = Some info
    /\ info_content info
       = Some (if decide (body = "") then "No content available"
               else if meta_is_alert md then body else html_text body)
    /\ info_content_type info
       = (if decide (body = "") then "unknown"
          else if meta_is_alert md then "alert" else "html")
    /\ info_title info = meta_title md
    /\ info_is_alert info = meta_is_alert md
    /\ info_timestamp info = now e
    /\ info_page_actions info = from_option page_actions JNull (table db !! url).
Proof.
  intros Hr Hf Hf'.
  destruct (ensure_connection_reachable _ _ Hr) as [db1 Hc].
  destruct (store_in_pgvector_apply html_text e cs url body md sid db db1 Hc) as [Hconn Htab].
  unfold get_page_content.
  rewrite (ensure_connection_connected _ _ Hconn), Hf', Htab.
  unfold apply_snapshot, store_in_pgvector. simpl. rewrite Hf.
  destruct (decide (body = "")); [|destruct (meta_is_alert md)]; simpl;
    rewrite lookup_insert_eq; eexists; (split; [reflexivity|]); simpl;
    repeat split; by destruct (table db !! url).
Qed.

(** X8: after a successful merge [get_page_content] reads back a mapping
    whose list under the session key is the earlier list followed by the
    batch; for a URL without a row it reads back nothing. *)
Theorem get_page_content_after_update
    (fmt : Z -> string) e e' url (batch : list json) sid db :
  PG_CONN db || server_up e = true ->
  db_raises e = false ->
  db_raises e' = false ->
  url <> "" ->
  batch <> [] ->
  (exists info,
     fst (get_page_content fmt e' url
            (snd (update_page_actions e url (JArr batch) sid db))) = Some info
     /\ list_under (session_key sid) (info_page_actions info)
        = session_list db url (session_key sid) ++ batch)
  /\ forall u, table db !! u = None -> u <> url ->
       fst (get_page_content fmt e' u
              (snd (update_page_actions e url (JArr batch) sid db))) = None.
Proof.
  intros Hr Hf Hf' Hu Hb. destruct batch as [|x l]; [done|].
  pose proof (session_list_written e url x l sid db Hr Hf Hu) as Hlist.
  rewrite update_page_actions_writes in * by done.
  unfold get_page_content. simpl. rewrite Hf'. simpl. split.
  - unfold session_list, stored_actions in Hlist. simpl in Hlist.
    destruct (write_actions e url (x :: l) sid (table db) !! url) as [r|] eqn:E.
    + eexists. split; [reflexivity|]. exact Hlist.
    + pose proof (write_actions_lookup e url (x :: l) sid (table db)) as Hw.
      by rewrite E in Hw.
  - intros u Hnone Hne. by rewrite write_actions_lookup_ne, Hnone.
Qed.

(** *** Statistics *)

Lemma sum_counts_insert (m : gmap string nat) c n :
  sum_counts (<[ c := n ]> m) = (n + sum_counts (delete c m))%nat.
Proof.
  unfold sum_counts. rewrite <- insert_delete_eq.
  rewrite (map_fold_insert_L _ _ c n (delete c m)); [done| |apply lookup_delete_eq].
  intros. lia.
Qed.

Lemma sum_counts_delete (m : gmap string nat) c :
  sum_counts m = (default 0%nat (m !! c) + sum_counts (delete c m))%nat.
Proof.
  unfold sum_counts. destruct (m !! c) as [n|] eqn:E; simpl.
  - rewrite (map_fold_delete_L _ _ c n m); [done| |done]. intros. lia.
  - by rewrite delete_id.
Qed.

(** The counts of a [GROUP BY] add up to the number of rows. *)
Lemma sum_counts_count_by_type rows :
  sum_counts (count_by_type rows) = List.length rows.
Proof.
  induction rows as [|r rows IH]; [done|].
  simpl. rewrite sum_counts_insert.
  rewrite (sum_counts_delete (count_by_type rows) (content_type r)) in IH.
  simpl. lia.
Qed.

Lemma count_by_type_positive rows c n :
  count_by_type rows !! c = Some n -> (0 < n)%nat.
Proof.
  revert n. induction rows as [|r rows IH]; intros n; simpl; [done|].
  destruct (decide (content_type r = c)) as [->|Hne].
  - rewrite lookup_insert_eq. intros [= <-]. lia.
  - rewrite lookup_insert_ne by done. apply IH.
Qed.

Lemma count_by_type_present rows r :
  r ∈ rows -> is_Some (count_by_type rows !! content_type r).
Proof.
  induction rows as [|r' rows IH]; [by intros ?%elem_of_nil|].
  intros [->|Hin]%elem_of_cons; simpl.
  - rewrite lookup_insert_eq. by eexists.
  - destruct (decide (content_type r' = content_type r)) as [->|Hne].
    + rewrite lookup_insert_eq. by eexists.
    + rewrite lookup_insert_ne by done. by apply IH.
Qed.

(** X9: the statistics are consistent.  The alert count is at most the
    total, the counts by content type add up to the total, none of them is
    zero and every content type of a selected row has one, an empty
    selection has no first or latest capture, and the total for one session
    is at most the total over all sessions. *)
Theorem get_db_stats_consistent (fmt : Z -> string) e sid db s :
  fst (get_db_stats fmt e sid db) = StatsOk s ->
  (alerts s <= total s)%nat
  /\ sum_counts (content_types s) = total s
  /\ (forall c n, content_types s !! c = Some n -> (0 < n)%nat)
  /\ (forall r, r ∈ selected_rows sid (table db) ->
       is_Some (content_types s !! content_type r))
  /\ (total s = 0%nat -> first_capture s = None /\ latest_capture s = None)
  /\ exists s_all,
       fst (get_db_stats fmt e None db) = StatsOk s_all
       /\ (total s <= total s_all)%nat.
Proof.
  unfold get_db_stats.
  destruct (ensure_connection e db) as [db1|] eqn:Hc; [|done].
  destruct (db_raises e); [done|]. simpl. intros [= <-]. simpl.
  apply ensure_connection_table in Hc as [Ht _]. rewrite Ht.
  split; [apply length_filter|].
  split; [apply sum_counts_count_by_type|].
  split; [apply count_by_type_positive|].
  split; [apply count_by_type_present|].
  split.
  - intros H0. unfold min_timestamp, max_timestamp.
    destruct (selected_rows sid (table db)); [done|discriminate].
  - eexists. split; [reflexivity|]. simpl. unfold selected_rows.
    destruct sid as [sv|]; [|done]. case_decide; [done|]. apply length_filter.
Qed.

Import Samples MoreSamples.

Lemma snapshot_and_actions_commute_witness :
  now env_ok <> now env_later /\
  snapshot_view <$> table
    (snd (update_page_actions env_later page_url (JArr [c]) (Some "s1")
       (snd (store_in_pgvector whole_text env_ok None page_url cart_html cart_metadata
               (Some "s1") partitioned_db)))) !! page_url
  = snapshot_view <$> table
    (snd (store_in_pgvector whole_text env_later None page_url cart_html cart_metadata
            (Some "s1")
       (snd (update_page_actions env_ok page_url (JArr [c]) (Some "s1") partitioned_db))))
    !! page_url.
Proof.
  split; [discriminate|].
  apply (proj1 (snapshot_and_actions_commute whole_text env_ok env_later None page_url
                  cart_html cart_metadata (Some "s1") page_url (JArr [c]) (Some "s1")
                  partitioned_db page_url eq_refl eq_refl)).
Defined.

Lemma update_page_actions_keeps_snapshot_witness :
  exists r',
    table (snd (update_page_actions env_ok page_url (JArr [c]) (Some "s1") partitioned_db))
      !! page_url = Some r'
    /\ embedding r' = embedding partitioned_row
    /\ content r' = content partitioned_row
    /\ content_type r' = content_type partitioned_row
    /\ title r' = title partitioned_row
    /\ is_alert r' = is_alert partitioned_row
    /\ (page_url <> page_url -> r' = partitioned_row).
Proof.
  apply (update_page_actions_keeps_snapshot env_ok page_url (JArr [c]) (Some "s1")
           partitioned_db page_url partitioned_row).
  reflexivity.
Defined.

Lemma update_page_actions_appends_in_order_witness :
  session_list
    (snd (update_page_actions env_ok page_url (JArr [input_t2]) (Some "s1")
       (snd (update_page_actions env_ok page_url (JArr [click_t1]) (Some "s1") empty_db))))
    page_url (session_key (Some "s1"))
  = session_list empty_db page_url (session_key (Some "s1")) ++ [click_t1] ++ [input_t2].
Proof.
  apply (update_page_actions_appends_in_order env_ok env_ok page_url
           [click_t1] [input_t2] (Some "s1") empty_db).
  - reflexivity.
  - reflexivity.
  - reflexivity.
  - discriminate.
  - discriminate.
  - discriminate.
Defined.

Lemma update_page_actions_first_batch_witness :
  stored_actions (snd (update_page_actions env_ok page_url (JArr [a; b]) (Some "s1") empty_db))
    page_url
  = Some (JObj {[ session_key (Some "s1") := JArr [a; b] ]}).
Proof.
  apply (update_page_actions_first_batch env_ok page_url [a; b] (Some "s1") empty_db).
  - reflexivity.
  - reflexivity.
  - reflexivity.
  - discriminate.
  - discriminate.
Defined.

Lemma get_page_content_after_store_witness :
  exists info,
    fst (get_page_content show_time env_ok page_url
           (snd (store_in_pgvector whole_text env_ok (Some "s1") page_url cart_html
                   cart_metadata None partitioned_db))) = Some info
    /\ info_content info = Some cart_html
    /\ info_title info = "Cart"
    /\ info_page_actions info = JObj two_sessions.
Proof.
  destruct (get_page_content_after_store show_time whole_text env_ok env_ok (Some "s1")
              page_url cart_html cart_metadata None partitioned_db)
    as (info & Hget & Hc & _ & Ht & _ & _ & Hpa).
  - reflexivity.
  - reflexivity.
  - reflexivity.
  - exists info. split; [exact Hget|]. split; [exact Hc|]. split; [exact Ht|exact Hpa].
Defined.

Lemma get_page_content_after_update_witness :
  exists info,
    fst (get_page_content show_time env_ok page_url
           (snd (update_page_actions env_ok page_url (JArr [c]) (Some "s1") partitioned_db)))
      = Some info
    /\ list_under (session_key (Some "s1")) (info_page_actions info)
       = session_list partitioned_db page_url (session_key (Some "s1")) ++ [c].
Proof.
  apply (get_page_content_after_update show_time env_ok env_ok page_url [c] (Some "s1")
           partitioned_db).
  - reflexivity.
  - reflexivity.
  - reflexivity.
  - discriminate.
  - discriminate.
Defined.

Lemma get_db_stats_consistent_witness :
  fst (get_db_stats show_time env_ok None legacy_db) = StatsOk legacy_stats
  /\ (alerts legacy_stats <= total legacy_stats)%nat
  /\ sum_counts (content_types legacy_stats) = total legacy_stats.
Proof.
  assert (H : fst (get_db_stats show_time env_ok None legacy_db) = StatsOk legacy_stats)
    by (vm_compute; reflexivity).
  split; [exact H|].
  destruct (get_db_stats_consistent show_time env_ok None legacy_db legacy_stats H)
    as (Ha & Hs & _).
  split; [exact Ha|exact Hs].
Defined.

End VectorDbMore.

(** ** The capture script: numbering and sensitivity *)

Module PageMore.

Import Page PageRuns PageFacts.






Import Samples.


(** *** Sensitivity *)

Lemma prefix_app k s : String.prefix k (k +:+ s) = true.
Proof.
  induction k as [|ch k IH]; simpl; [by destruct s|].
  by destruct (ascii_dec ch ch).
Qed.

Lemma prefix_inv k : forall h, String.prefix k h = true -> exists s, h = k +:+ s.
Proof.
  induction k as [|ch k IH]; intros h.
  - intros _. by exists h.
  - destruct h as [|ch' h]; simpl; [done|].
    destruct (ascii_dec ch ch') as [->|]; [|done].
    intros [s ->]%IH. by exists s.
Qed.

(** [includes] is containment as a substring. *)
Lemma includes_iff h k :
  includes h k = true <-> exists p s, h = p +:+ k +:+ s.
Proof.
  split.
  - induction h as [|ch h IH]; cbn [includes].
    + rewrite orb_false_r. intros [s Hs]%prefix_inv. by exists "", s.
    + intros [Hp|Hi]%orb_true_iff.
      * apply prefix_inv in Hp as [s Hs]. by exists "", s.
      * destruct (IH Hi) as (p & s & ->). by exists (String ch p), s.
  - intros (p & s & ->). induction p as [|ch p IH].
    + change ("" +:+ k +:+ s) with (k +:+ s).
      destruct (k +:+ s) eqn:E; cbn [includes]; rewrite <- E, prefix_app; done.
    + change (String ch p +:+ k +:+ s) with (String ch (p +:+ k +:+ s)).
      cbn [includes]. rewrite IH. apply orb_true_r.
Qed.

Lemma toLowerCase_app a b : toLowerCase (a +:+ b) = toLowerCase a +:+ toLowerCase b.
Proof. induction a as [|ch a IH]; simpl; [done|]. by rewrite IH. Qed.

Lemma isSensitive_char el :
  (exists h k p s, In h (haystacks el) /\ In k needles /\ h = p +:+ k +:+ s) ->
  isSensitive el = true.
Proof.
  unfold isSensitive. fold (haystacks el).
  intros (h & k & p & s & Hh & Hk & ->).
  apply orb_true_iff. right. apply existsb_exists. eexists. split; [exact Hh|].
  apply existsb_exists. exists k. split; [done|]. apply includes_iff. by exists p, s.
Qed.

(** X11: what [isSensitive] decides.  An element is sensitive exactly when
    one of the six texts it searches (name, id, placeholder, autocomplete,
    aria-label and type, in lower case) contains one of the twelve keywords
    as a substring. *)
Theorem isSensitive_iff_keyword_substring el :
  isSensitive el = true <->
  exists h k p s, In h (haystacks el) /\ In k needles /\ h = p +:+ k +:+ s.
Proof.
  unfold isSensitive. fold (haystacks el). split.
  - intros [Hpw|Hex]%orb_true_iff.
    + unfold streq in Hpw. apply bool_decide_eq_true in Hpw.
      exists (toLowerCase (el_type el)), "password", "", "".
      split; [unfold haystacks; simpl; tauto|]. split; [simpl; tauto|].
      by rewrite Hpw.
    + apply existsb_exists in Hex as (h & Hh & Hk).
      apply existsb_exists in Hk as (k & Hk & Hinc).
      apply includes_iff in Hinc as (p & s & ->). by exists (p +:+ k +:+ s), k, p, s.
  - fold (isSensitive el). apply isSensitive_char.
Qed.

(** X12: letter case does not matter.  When the name, id, placeholder,
    autocomplete or aria-label of an element contains, anywhere and in any
    letter case, a word whose lower-case form is a keyword, the element is
    sensitive. *)
Theorem keyword_in_any_case_is_sensitive el (p word s : string) :
  In (toLowerCase word) needles ->
  In (Some (p +:+ word +:+ s))
     [attr_name el; Some (el_id el); attr_placeholder el; attr_autocomplete el;
      attr_aria_label el] ->
  isSensitive el = true.
Proof.
  intros Hk Hattr. apply isSensitive_char.
  exists (toLowerCase (p +:+ word +:+ s)), (toLowerCase word), (toLowerCase p), (toLowerCase s).
  split; [|split; [done|by rewrite !toLowerCase_app]].
  unfold haystacks, attr_lower. simpl in Hattr |- *.
  destruct Hattr as [->|[[= ->]|[->|[->|[->|[]]]]]]; simpl; tauto.
Qed.

End PageMore.

(** ** The capture loop: frames and compositions *)

Module ControllerMore.

Import VectorDb Page Controller ControllerAux VectorDbFacts ControllerFacts.

(** *** The target address *)

(** X13: normalising the target address twice is the same as once, and the
    result always starts with [http://] or [https://]. *)
Theorem normalize_target_idempotent target :
  normalize_target (normalize_target target) = normalize_target target
  /\ String.prefix "http://" (normalize_target target)
     || String.prefix "https://" (normalize_target target) = true.
Proof.
  assert (H : String.prefix "http://" (normalize_target target)
              || String.prefix "https://" (normalize_target target) = true).
  { unfold normalize_target.
    destruct (String.prefix "http://" target || String.prefix "https://" target) eqn:E;
      [done|].
    rewrite (PageMore.prefix_app "https://" target). apply orb_true_r. }
  split; [|done]. unfold normalize_target at 1. by rewrite H.
Qed.

(** *** Batches *)

(** X14: [process_new_actions] for one URL leaves every other URL alone:
    its buffer and its row; and it never touches the browser, the known
    windows or the recorded pages. *)
Theorem process_new_actions_other_urls e url actions st (u : string) :
  u <> url ->
  page_action_logs (process_new_actions e url actions st) !! u = page_action_logs st !! u
  /\ table (db (process_new_actions e url actions st)) !! u = table (db st) !! u
  /\ browser (process_new_actions e url actions st) = browser st
  /\ all_windows (process_new_actions e url actions st) = all_windows st
  /\ flows (process_new_actions e url actions st) = flows st.
Proof.
  intros Hne. destruct actions as [|x l]; [done|].
  destruct (process_new_actions_cons e url x l st) as [-> ->].
  split; [by rewrite lookup_insert_ne|]. split; [|done].
  destruct (update_page_actions_table (pg_e e) url
              (JArr (default [] (page_action_logs st !! url) ++ x :: l)) None (db st))
    as [->|(a' & l' & _ & _ & ->)]; [done|].
  by apply write_actions_lookup_ne.
Qed.

Lemma process_new_actions_connected e url actions st :
  PG_CONN (db st) = true -> PG_CONN (db (process_new_actions e url actions st)) = true.
Proof.
  intros Hc. destruct actions as [|x l]; [done|].
  rewrite (proj2 (process_new_actions_cons e url x l st)).
  by destruct (update_page_actions_apply (pg_e e) url
                 (JArr (default [] (page_action_logs st !! url) ++ x :: l)) None (db st) (db st)
                 (ensure_connection_connected _ _ Hc)).
Qed.

(** One batch, in terms of the buffer before. *)
Lemma process_new_actions_step e url x l st :
  PG_CONN (db st) || server_up (pg_e e) = true ->
  db_raises (pg_e e) = false ->
  url <> "" ->
  default [] (page_action_logs (process_new_actions e url (x :: l) st) !! url)
    = default [] (page_action_logs st !! url) ++ x :: l
  /\ session_list (db (process_new_actions e url (x :: l) st)) url session_unknown
     = session_list (db st) url session_unknown
       ++ default [] (page_action_logs st !! url) ++ x :: l
  /\ PG_CONN (db (process_new_actions e url (x :: l) st)) = true.
Proof.
  intros Hr Hf Hu.
  destruct (process_new_actions_cons e url x l st) as [-> ->].
  rewrite lookup_insert_eq. split; [done|].
  destruct (default [] (page_action_logs st !! url) ++ x :: l) as [|y l'] eqn:E;
    [by destruct (default [] (page_action_logs st !! url))|].
  split; [|by rewrite update_page_actions_writes].
  pose proof (session_list_written (pg_e e) url y l' None (db st) Hr Hf Hu) as W.
  exact W.
Qed.

(** X15: a run of non-empty batches for one URL.  The buffer of the URL ends
    as the buffer before followed by all the batches, and the list under
    [session_unknown] grows by every intermediate buffer in turn: batch [i]
    is stored again with each of the batches after it. *)
Theorem process_batches_store_every_buffer e url batches st :
  Forall (fun batch => batch <> []) batches ->
  PG_CONN (db st) || server_up (pg_e e) = true ->
  db_raises (pg_e e) = false ->
  url <> "" ->
  default [] (page_action_logs (process_batches e url batches st) !! url)
    = default [] (page_action_logs st !! url) ++ List.concat batches
  /\ session_list (db (process_batches e url batches st)) url session_unknown
     = session_list (db st) url session_unknown
       ++ List.concat (running_buffers (default [] (page_action_logs st !! url)) batches).
Proof.
  intros Hne Hr Hf Hu. revert st Hr.
  induction Hne as [|batch rest Hb _ IH]; intros st Hr.
  - simpl. by rewrite !app_nil_r.
  - destruct batch as [|x l]; [done|].
    destruct (process_new_actions_step e url x l st Hr Hf Hu) as (Hbuf & Hlist & Hconn).
    change (process_batches e url ((x :: l) :: rest) st)
      with (process_batches e url rest (process_new_actions e url (x :: l) st)).
    destruct (IH (process_new_actions e url (x :: l) st)) as [IH1 IH2];
      [by rewrite Hconn|].
    rewrite IH1, IH2, Hbuf, Hlist.
    change (List.concat ((x :: l) :: rest)) with ((x :: l) ++ List.concat rest).
    change (running_buffers (default [] (page_action_logs st !! url)) ((x :: l) :: rest))
      with ((default [] (page_action_logs st !! url) ++ x :: l)
            :: running_buffers (default [] (page_action_logs st !! url) ++ x :: l) rest).
    change (List.concat (?b :: ?r)) with (b ++ List.concat r).
    by rewrite <- !app_assoc.
Qed.

(** *** States that keep the recorded actions *)

Lemma same_actions_refl st : same_actions st st.
Proof. by split. Qed.

Lemma same_actions_trans st1 st2 st3 :
  same_actions st1 st2 -> same_actions st2 st3 -> same_actions st1 st3.
Proof.
  intros [L1 D1] [L2 D2]. split; [by rewrite L2|].
  intros u k. by rewrite D2.
Qed.

Lemma same_actions_set_browser b st : same_actions st (set_browser b st).
Proof. by split. Qed.

Lemma same_actions_emit ev st : same_actions st (emit ev st).
Proof. by split. Qed.

Lemma same_actions_set_all_windows ws st : same_actions st (set_all_windows ws st).
Proof. by split. Qed.

Lemma store_in_pgvector_session_list html_text e cs url body md sid db u k :
  session_list (snd (store_in_pgvector html_text e cs url body md sid db)) u k
  = session_list db u k.
Proof.
  unfold session_list, stored_actions.
  destruct (VectorDbMore.store_in_pgvector_cases html_text e cs url body md sid db)
    as [->|(r' & -> & Hpa & _)]; [done|].
  destruct (decide (u = url)) as [->|Hne].
  - rewrite lookup_insert_eq. simpl. rewrite Hpa. by destruct (table db !! url).
  - by rewrite lookup_insert_ne.
Qed.

Lemma same_actions_record_action html_text e url md body ref st :
  same_actions st (record_action html_text e url md body ref st).
Proof.
  split.
  - unfold record_action. by destruct (flows st !! url).
  - intros u k. rewrite (proj2 (proj2 (record_action_effects html_text e url md body ref st))).
    apply store_in_pgvector_session_list.
Qed.

Lemma check_alerts_dismisses html_text e st :
  check_alerts html_text e st
  = match pending_alert (browser st) with
    | None => (false, st)
    | Some _ => (false, set_browser (fst (read_current_url (browser st))) st)
    end.
Proof.
  unfold check_alerts, read_current_url.
  by destruct (pending_alert (browser st)).
Qed.

Lemma same_actions_check_alerts html_text e st :
  same_actions st (snd (check_alerts html_text e st)).
Proof.
  rewrite check_alerts_dismisses.
  destruct (pending_alert (browser st)); [|apply same_actions_refl].
  apply same_actions_set_browser.
Qed.

(** X16: handling a dialog never disturbs what is recorded for pages.  The
    buffers and the list under every session key of every URL are as
    before, and the row of the page that shows the dialog is untouched. *)
Theorem check_alerts_keeps_recorded_pages (html_text : string -> string) e st :
  same_actions st (snd (check_alerts html_text e st))
  /\ forall url,
       current_url (browser st) = Some url ->
       table (db (snd (check_alerts html_text e st))) !! url = table (db st) !! url.
Proof.
  split; [apply same_actions_check_alerts|].
  intros url _. rewrite check_alerts_dismisses.
  by destruct (pending_alert (browser st)).
Qed.

(** *** Scripts and tabs *)

Lemma on_handle_view h f t : tab_view (on_handle h f t) = tab_view t.
Proof. unfold on_handle. by destruct (streq (handle t) h). Qed.



Lemma find_views_eq h (l1 : list tab) : forall l2 : list tab,
  tab_view <$> l1 = tab_view <$> l2 ->
  tab_view <$> List.find (fun t => streq (handle t) h) l1
  = tab_view <$> List.find (fun t => streq (handle t) h) l2.
Proof.
  induction l1 as [|t1 l1 IH]; intros [|t2 l2]; simpl; try done.
  intros [= Hh Hu Hs Hl]. rewrite Hh.
  destruct (streq (handle t2) h); simpl; [|by apply IH].
  unfold tab_view. by rewrite Hh, Hu, Hs.
Qed.

Lemma execute_script_browser s b :
  fst (execute_script s b)
  = if bool_decide (is_Some (current_tab b))
    then {| alive := alive b;
            tabs := on_handle (current_window_handle b) (fun w => fst (s w)) <$> tabs b;
            current_window_handle := current_window_handle b;
            pending_alert := pending_alert b |}
    else b.
Proof.
  unfold execute_script. destruct (current_tab b) as [t|]; [|done].
  by rewrite bool_decide_eq_true_2 by (by eexists).
Qed.

Lemma execute_script_frame s b :
  tab_view <$> tabs (fst (execute_script s b)) = tab_view <$> tabs b
  /\ current_window_handle (fst (execute_script s b)) = current_window_handle b
  /\ alive (fst (execute_script s b)) = alive b
  /\ pending_alert (fst (execute_script s b)) = pending_alert b.
Proof.
  rewrite execute_script_browser. case_bool_decide; [|done]. simpl.
  split; [|done]. rewrite <- list_fmap_compose. apply list_fmap_ext.
  intros i t _. apply on_handle_view.
Qed.





Lemma inject_action_listeners_frame b :
  tab_view <$> tabs (inject_action_listeners b) = tab_view <$> tabs b
  /\ current_window_handle (inject_action_listeners b) = current_window_handle b
  /\ alive (inject_action_listeners b) = alive b
  /\ pending_alert (inject_action_listeners b) = pending_alert b.
Proof.
  unfold inject_action_listeners. destruct (is_browser_alive b); [|done].
  apply execute_script_frame.
Qed.


(** *** Draining, at the level of the browser *)

Lemma drain_action_queue_empty b : snd (drain_action_queue b) = [].
Proof.
  unfold drain_action_queue. destruct (is_browser_alive b); [|done].
  destruct (execute_script drain_script b) as [b' r] eqn:E.
  pose proof (execute_script_drain_result b) as Hr. rewrite E in Hr. simpl in Hr. by subst r.
Qed.

Lemma drain_action_queue_browser b :
  fst (drain_action_queue b)
  = if is_browser_alive b then fst (execute_script drain_script b) else b.
Proof.
  unfold drain_action_queue. destruct (is_browser_alive b); [|done].
  by destruct (execute_script drain_script b).
Qed.

Lemma drain_action_queue_frame b :
  tab_view <$> tabs (fst (drain_action_queue b)) = tab_view <$> tabs b
  /\ current_window_handle (fst (drain_action_queue b)) = current_window_handle b
  /\ alive (fst (drain_action_queue b)) = alive b
  /\ pending_alert (fst (drain_action_queue b)) = pending_alert b.
Proof.
  rewrite drain_action_queue_browser. destruct (is_browser_alive b); [|done].
  apply execute_script_frame.
Qed.


(** *** One pass over the tabs *)

Lemma results_for_views nh (l1 l2 : list tab) h :
  tab_view <$> l1 = tab_view <$> l2 -> results_for nh l1 h = results_for nh l2 h.
Proof.
  intros Hv. unfold results_for. pose proof (find_views_eq h l1 l2 Hv) as Hf.
  destruct (List.find _ l1) as [t1|], (List.find _ l2) as [t2|]; try done.
  simpl in Hf. injection Hf as Hh Hu Hs. unfold result_of. by rewrite Hh, Hu, Hs.
Qed.

Lemma capture_tab_spec e nh st results h :
  exists b',
    fst (capture_tab e nh (st, results) h) = set_browser b' st
    /\ tab_view <$> tabs b' = tab_view <$> tabs (browser st)
    /\ alive b' = alive (browser st)
    /\ pending_alert b' = pending_alert (browser st)
    /\ snd (capture_tab e nh (st, results) h)
       = results ++ results_for nh (tabs (browser st)) h.
Proof.
  unfold capture_tab.
  set (b1 := switch_to_window h (browser st)).
  destruct (inject_action_listeners_frame b1) as (Hv2 & Hh2 & Ha2 & Hp2).
  destruct (drain_action_queue_frame (inject_action_listeners b1)) as (Hv3 & Hh3 & Ha3 & Hp3).
  pose proof (drain_action_queue_empty (inject_action_listeners b1)) as Hempty.
  destruct (drain_action_queue (inject_action_listeners b1)) as [b3 pending].
  simpl in *. subst pending.
  assert (Hv : tab_view <$> tabs b3 = tab_view <$> tabs (browser st)) by (by rewrite Hv3, Hv2).
  assert (Hh : current_window_handle b3 = h) by (by rewrite Hh3, Hh2).
  exists b3.
  assert (Hres : results_for nh (tabs (browser st)) h = results_for nh (tabs b3) h)
    by (symmetry; by apply results_for_views).
  rewrite Hres. unfold results_for, current_tab. rewrite Hh.
  destruct (List.find _ (tabs b3)) as [t|] eqn:Hfind.
  - apply find_some in Hfind as [_ Hth]. unfold streq in Hth.
    apply bool_decide_eq_true in Hth.
    destruct (streq (tab_url t) "about:blank"); simpl.
    + rewrite app_nil_r. repeat split; try done; congruence.
    + unfold result_of. rewrite Hth. repeat split; try done; congruence.
  - simpl. rewrite app_nil_r. repeat split; try done; congruence.
Qed.

Lemma capture_tabs_spec e nh hs : forall st results,
  exists b',
    fst (foldl (capture_tab e nh) (st, results) hs) = set_browser b' st
    /\ tab_view <$> tabs b' = tab_view <$> tabs (browser st)
    /\ alive b' = alive (browser st)
    /\ pending_alert b' = pending_alert (browser st)
    /\ snd (foldl (capture_tab e nh) (st, results) hs)
       = results ++ List.concat (results_for nh (tabs (browser st)) <$> hs).
Proof.
  induction hs as [|h hs IH]; intros st results.
  - exists (browser st). simpl. rewrite app_nil_r. by destruct st.
  - destruct (capture_tab_spec e nh st results h) as (b1 & Hst1 & Hv1 & Ha1 & Hp1 & Hr1).
    cbn [foldl]. destruct (capture_tab e nh (st, results) h) as [st1 res1].
    simpl in Hst1, Hr1. subst st1 res1.
    destruct (IH (set_browser b1 st) (results ++ results_for nh (tabs (browser st)) h))
      as (b' & Hst' & Hv' & Ha' & Hp' & Hr').
    exists b'. simpl in Hv', Ha', Hp', Hr'. rewrite Hst', Hr'.
    split; [done|]. split; [by rewrite Hv'|]. split; [by rewrite Ha'|].
    split; [by rewrite Hp'|].
    rewrite <- app_assoc. f_equal. simpl. f_equal. f_equal.
    apply list_fmap_ext. intros i h' _. by apply results_for_views.
Qed.









(** *** Content changes *)

(** Processing a result without events: nothing when the fingerprint is the
    stored one, otherwise one record and the new fingerprint. *)
Lemma process_tab_no_events
    (py_hash : string -> Z) (html_text : string -> string)
    (extract_metadata : string -> gmap string json) e last st processed td :
  r_events td = [] ->
  (processed !! r_url td = Some (py_hash (r_content td)) /\
   process_tab py_hash html_text extract_metadata e last (st, processed) td = (st, processed))
  \/
  (processed !! r_url td <> Some (py_hash (r_content td)) /\
   exists st',
     process_tab py_hash html_text extract_metadata e last (st, processed) td
     = (st', <[ r_url td := py_hash (r_content td) ]> processed)).
Proof.
  intros Hev. unfold process_tab. rewrite Hev.
  case_decide as Hd; [left|right]; split; try done. by eexists.
Qed.

(** X21: a page whose content has not changed is recorded once.  Processing
    the same result again, with no events, changes neither the state nor
    the fingerprints. *)
Theorem process_tab_same_content_once
    (py_hash : string -> Z) (html_text : string -> string)
    (extract_metadata : string -> gmap string json) e last st processed td :
  r_events td = [] ->
  process_tab py_hash html_text extract_metadata e last
    (process_tab py_hash html_text extract_metadata e last (st, processed) td) td
  = process_tab py_hash html_text extract_metadata e last (st, processed) td.
Proof.
  intros Hev.
  destruct (process_tab_no_events py_hash html_text extract_metadata e last st processed td Hev)
    as [[Hsame ->]|[Hdiff [st' ->]]].
  - destruct (process_tab_no_events py_hash html_text extract_metadata e last
                st processed td Hev) as [[_ ->]|[Hdiff _]]; done.
  - destruct (process_tab_no_events py_hash html_text extract_metadata e last
                st' (<[ r_url td := py_hash (r_content td) ]> processed) td Hev)
      as [[_ ->]|[Hdiff' _]]; [done|].
    by rewrite lookup_insert_eq in Hdiff'.
Qed.

(** *** What the loop never writes *)

Lemma extends_refl st : extends st st.
Proof. by repeat split. Qed.

Lemma extends_trans st1 st2 st3 : extends st1 st2 -> extends st2 st3 -> extends st1 st3.
Proof.
  intros (S1 & C1 & T1) (S2 & C2 & T2). repeat split; [congruence..|].
  by etrans.
Qed.

Lemma extends_set_browser b st : extends st (set_browser b st).
Proof. by repeat split. Qed.

Lemma extends_set_db d st : extends st (set_db d st).
Proof. by repeat split. Qed.

Lemma extends_set_logs l st : extends st (set_logs l st).
Proof. by repeat split. Qed.

Lemma extends_set_flows f st : extends st (set_flows f st).
Proof. by repeat split. Qed.

Lemma extends_set_all_windows ws st : extends st (set_all_windows ws st).
Proof. by repeat split. Qed.

Lemma extends_emit ev st : extends st (emit ev st).
Proof. repeat split; try done. simpl. by apply prefix_app_r. Qed.

Lemma extends_process_new_actions e url actions st :
  extends st (process_new_actions e url actions st).
Proof.
  destruct actions as [|x l]; [apply extends_refl|].
  unfold process_new_actions.
  eapply extends_trans; [apply extends_set_logs|].
  eapply extends_trans; [apply extends_set_db|apply extends_emit].
Qed.

Lemma extends_record_action html_text e url md body ref st :
  extends st (record_action html_text e url md body ref st).
Proof.
  unfold record_action.
  eapply extends_trans; [|eapply extends_trans; [apply extends_emit|apply extends_set_db]].
  destruct (flows st !! url); [apply extends_refl|apply extends_set_flows].
Qed.

Lemma extends_check_alerts html_text e st :
  extends st (snd (check_alerts html_text e st)).
Proof.
  rewrite check_alerts_dismisses.
  destruct (pending_alert (browser st)); [|apply extends_refl].
  apply extends_set_browser.
Qed.

(** A pass over the tabs changes the browser, the known windows and the
    effects only, and its results carry no events. *)
Lemma capture_all_tabs_effects e st st' results current :
  capture_all_tabs e st = Some (st', results, current) ->
  extends st st' /\ same_actions st st' /\ Forall (fun r => r_events r = []) results.
Proof.
  unfold capture_all_tabs. destruct (current_tab (browser st)) as [t0|]; [|done].
  set (nh := list_to_set (handle <$> tabs (browser st)) ∖ all_windows st).
  set (st1 := set_all_windows (list_to_set (handle <$> tabs (browser st))) (emit EvEnumerate st)).
  destruct (capture_tabs_spec e nh (handle <$> tabs (browser st)) st1 [])
    as (b' & Hst & _ & _ & _ & Hres).
  destruct (foldl (capture_tab e nh) (st1, []) (handle <$> tabs (browser st)))
    as [st2 res2].
  simpl in Hst, Hres. subst st2 res2. intros [= <- <- _].
  split; [|split].
  - eapply extends_trans; [apply (extends_emit EvEnumerate)|]. by repeat split.
  - by split.
  - apply Forall_concat, Forall_fmap, Forall_forall. intros h _. simpl.
    unfold results_for. destruct (List.find _ _) as [t|]; [|done].
    destruct (streq (tab_url t) "about:blank"); [done|]. by apply Forall_singleton.
Qed.

Section Loop.

Variable py_hash : string -> Z.
Variable html_text : string -> string.
Variable extract_metadata : string -> gmap string json.

Lemma extends_process_tab e last st processed td :
  extends st (fst (process_tab py_hash html_text extract_metadata e last (st, processed) td)).
Proof.
  unfold process_tab.
  assert (Hev : extends st (match r_events td with
                            | [] => st
                            | _ :: _ => process_new_actions e (r_url td) (r_events td) st
                            end)).
  { destruct (r_events td); [apply extends_refl|apply extends_process_new_actions]. }
  case_decide; [exact Hev|]. cbn [fst].
  eapply extends_trans; [exact Hev|].
  eapply extends_trans; [apply extends_record_action|].
  eapply extends_trans; [apply extends_emit|apply extends_set_browser].
Qed.

Lemma same_actions_process_tab e last st processed td :
  r_events td = [] ->
  same_actions st (fst (process_tab py_hash html_text extract_metadata e last (st, processed) td)).
Proof.
  intros Hev. unfold process_tab. rewrite Hev.
  case_decide; [apply same_actions_refl|]. cbn [fst].
  eapply same_actions_trans; [apply same_actions_record_action|].
  eapply same_actions_trans; [apply same_actions_emit|apply same_actions_set_browser].
Qed.

Lemma process_tabs_effects e last tabs_data : forall st processed,
  extends st (fst (foldl (process_tab py_hash html_text extract_metadata e last)
                     (st, processed) tabs_data))
  /\ (Forall (fun r => r_events r = []) tabs_data ->
      same_actions st (fst (foldl (process_tab py_hash html_text extract_metadata e last)
                              (st, processed) tabs_data))).
Proof.
  induction tabs_data as [|td rest IH]; intros st processed.
  - split; [apply extends_refl|intros _; apply same_actions_refl].
  - cbn [foldl].
    pose proof (extends_process_tab e last st processed td) as He.
    pose proof (same_actions_process_tab e last st processed td) as Hs.
    destruct (process_tab py_hash html_text extract_metadata e last (st, processed) td)
      as [st1 processed1].
    destruct (IH st1 processed1) as [IHe IHs]. split.
    + by eapply extends_trans.
    + intros [Hev Hrest]%Forall_cons. eapply same_actions_trans; [by apply Hs|by apply IHs].
Qed.

Lemma loop_body_effects e st loc :
  extends st (loop_body py_hash html_text extract_metadata e st loc).1.2
  /\ same_actions st (loop_body py_hash html_text extract_metadata e st loc).1.2.
Proof.
  unfold loop_body.
  destruct (is_browser_alive (browser st)); simpl;
    [|split; [apply extends_emit|apply same_actions_emit]].
  pose proof (extends_check_alerts html_text e st) as He.
  pose proof (same_actions_check_alerts html_text e st) as Hs.
  destruct (check_alerts html_text e st) as [handled st1]. simpl in He, Hs.
  destruct handled; [done|].
  destruct (capture_all_tabs e st1) as [[[st2 tabs_data] current]|] eqn:Hc.
  - apply capture_all_tabs_effects in Hc as (He2 & Hs2 & Hev).
    destruct (process_tabs_effects e (last_url loc) tabs_data st2 (processed_urls loc))
      as [He3 Hs3].
    destruct (foldl _ _ tabs_data) as [st3 processed]. simpl in *. split.
    + eapply extends_trans; [exact He|]. eapply extends_trans; [exact He2|].
      eapply extends_trans; [exact He3|apply extends_emit].
    + eapply same_actions_trans; [exact Hs|]. eapply same_actions_trans; [exact Hs2|].
      eapply same_actions_trans; [by apply Hs3|apply same_actions_emit].
  - simpl. split.
    + eapply extends_trans; [exact He|apply extends_emit].
    + eapply same_actions_trans; [exact Hs|apply same_actions_emit].
Qed.

Lemma capture_loop_effects envs : forall st loc,
  extends st (fst (capture_loop py_hash html_text extract_metadata envs st loc))
  /\ same_actions st (fst (capture_loop py_hash html_text extract_metadata envs st loc)).
Proof.
  induction envs as [|e envs IH]; intros st loc.
  - split; [apply extends_refl|apply same_actions_refl].
  - cbn [capture_loop].
    destruct (stop_capturing st); [split; [apply extends_refl|apply same_actions_refl]|].
    destruct (loop_body_effects e st loc) as [He Hs].
    destruct (loop_body py_hash html_text extract_metadata e st loc) as [[c st1] loc1].
    simpl in He, Hs. destruct c; [|done].
    destruct (IH st1 loc1) as [IHe IHs]. split.
    + by eapply extends_trans.
    + by eapply same_actions_trans.
Qed.

End Loop.

(** X22: what the worker never writes.  However long the loop runs, the
    stop flag and the recording session in its state are the ones it
    started with, and the effects it has produced are only ever added to. *)
Theorem capture_loop_keeps_stop_flag_and_session
    (py_hash : string -> Z) (html_text : string -> string)
    (extract_metadata : string -> gmap string json) envs st loc :
  extends st (fst (capture_loop py_hash html_text extract_metadata envs st loc)).
Proof. apply capture_loop_effects. Qed.

(** X23: the loop records no action.  However long it runs, and whatever
    the pages have queued, the buffers of [page_action_logs] and the list
    under every session key of every URL are the ones from before the run:
    every drained batch is empty, so [process_new_actions] never gets
    one. *)
Theorem capture_loop_records_no_action
    (py_hash : string -> Z) (html_text : string -> string)
    (extract_metadata : string -> gmap string json) envs st loc :
  same_actions st (fst (capture_loop py_hash html_text extract_metadata envs st loc)).
Proof. apply capture_loop_effects. Qed.

(** X24: where the loop ends.  With the stop flag set it does nothing at
    all; with the browser gone it emits the one error notice and runs no
    further iteration, whatever is left to come. *)
Theorem capture_loop_stops
    (py_hash : string -> Z) (html_text : string -> string)
    (extract_metadata : string -> gmap string json) e envs st loc :
  (stop_capturing st = true ->
     capture_loop py_hash html_text extract_metadata (e :: envs) st loc = (st, loc))
  /\ (stop_capturing st = false ->
      is_browser_alive (browser st) = false ->
      capture_loop py_hash html_text extract_metadata (e :: envs) st loc
      = (emit (EvError "Browser Error" "Browser window was closed") st, loc)).
Proof.
  split.
  - intros Hs. cbn [capture_loop]. by rewrite Hs.
  - intros Hs Hd. cbn [capture_loop]. rewrite Hs. unfold loop_body. by rewrite Hd.
Qed.

(** *** Instances *)

Import Samples MoreSamples.

Lemma capture_loop_stops_witness :
  capture_loop length_hash whole_text title_only [world_ok; world_ok]
    (running closed_browser) no_locals
  = (emit (EvError "Browser Error" "Browser window was closed") (running closed_browser),
     no_locals).
Proof.
  apply (proj2 (capture_loop_stops length_hash whole_text title_only world_ok [world_ok]
                  (running closed_browser) no_locals)).
  - reflexivity.
  - reflexivity.
Defined.


Lemma process_new_actions_other_urls_witness :
  page_action_logs
    (process_new_actions world_ok page_url [a] (running two_tabs)) !! "about:blank"
  = page_action_logs (running two_tabs) !! "about:blank"
  /\ table (db (process_new_actions world_ok page_url [a] (running two_tabs))) !! "about:blank"
     = table (db (running two_tabs)) !! "about:blank".
Proof.
  destruct (process_new_actions_other_urls world_ok page_url [a] (running two_tabs)
              "about:blank") as (H1 & H2 & _).
  - discriminate.
  - split; [exact H1|exact H2].
Defined.

Lemma process_batches_store_every_buffer_witness :
  session_list (db (process_batches world_ok page_url [[a]; [b]; [c]] (running two_tabs)))
    page_url session_unknown
  = session_list (db (running two_tabs)) page_url session_unknown
    ++ List.concat (running_buffers [] [[a]; [b]; [c]]).
Proof.
  apply (process_batches_store_every_buffer world_ok page_url [[a]; [b]; [c]]
           (running two_tabs)).
  - repeat constructor; discriminate.
  - reflexivity.
  - reflexivity.
  - discriminate.
Defined.

Lemma check_alerts_keeps_recorded_pages_witness :
  table (db (snd (check_alerts whole_text world_ok
                    (running (one_tab page_url fresh_page (Some "Delete item?"))))))
    !! page_url
  = table (db (running (one_tab page_url fresh_page (Some "Delete item?")))) !! page_url.
Proof.
  apply (proj2 (check_alerts_keeps_recorded_pages whole_text world_ok
                  (running (one_tab page_url fresh_page (Some "Delete item?")))) page_url).
  reflexivity.
Defined.





Lemma process_tab_same_content_once_witness :
  process_tab length_hash whole_text title_only world_ok page_url
    (process_tab length_hash whole_text title_only world_ok page_url
       (running two_tabs, ∅) cart_result) cart_result
  = process_tab length_hash whole_text title_only world_ok page_url
      (running two_tabs, ∅) cart_result.
Proof.
  apply (process_tab_same_content_once length_hash whole_text title_only world_ok page_url
           (running two_tabs) ∅ cart_result).
  reflexivity.
Defined.

End ControllerMore.

(** ** Instances for the capture script *)

Module PageInstances.

Import Page PageRuns PageMore Samples MoreSamples.

Lemma isSensitive_iff_keyword_substring_witness :
  isSensitive token_input = true.
Proof.
  apply (proj2 (isSensitive_iff_keyword_substring token_input)).
  exists "api_token", "token", "api_", "".
  split; [simpl; tauto|]. split; [simpl; tauto|reflexivity].
Defined.

Lemma keyword_in_any_case_is_sensitive_witness :
  isSensitive mixed_case_input = true.
Proof.
  apply (keyword_in_any_case_is_sensitive mixed_case_input "API_" "Token" "_v2").
  - simpl. tauto.
  - left. reflexivity.
Defined.

End PageInstances.
